(** * Smart Financial Planner: the research pipeline and its tools

    A shallow embedding of [app/agents/tools/tools.py] and of the four
    stage functions ([researcher.node], [curator.node],
    [fact_checker.node], [writer.node]) that the graph of
    [app/graph/builder.py] runs in sequence.

    Conventions of the embedding.
    - A Python [str] is a [string]; a character is a code point below 256
      (Latin-1), which is what [ascii] holds.
    - A Python [int] is a [Z]; a length or a count is a [nat].
    - A Python [float] is an IEEE 754 binary64 value, a [spec_float] with
      [prec = 53] and [emax = 1024].
    - A dictionary with a fixed set of keys is a record whose fields are
      options ([None]: the key is absent); a dictionary whose keys matter
      to a property is a [gmap] from key to value.
    - The outside world (search providers, HTTP, regular expressions, the
      language model, the embedding index, the market data provider) is a
      record of functions, [World.t], that the tools take as a parameter;
      a reading of the clock is a parameter of the function that reads it.
    - A tool called through a [ToolNode] is called directly: the node
      serialises the tool's result and the stage's [_parse] reads it
      back. *)

From Stdlib Require Import ZArith Bool Ascii String DecimalString.
From Stdlib Require Import Floats.SpecFloat.
From stdpp Require Import base option list gmap strings.

Local Open Scope string_scope.

(** * Part I: the program *)

(** ** Python strings and lists *)

Module Py.

(** Truth value of a string: the empty string is false. *)
Definition truthy (s : string) : bool :=
  match s with
  | EmptyString => false
  | String _ _ => true
  end.

(** [d.get(k) or default] for a string valued key. *)
Definition get_or (o : option string) (default : string) : string :=
  match o with
  | Some s => if truthy s then s else default
  | None => default
  end.

(** [a or b] where both operands are strings. *)
Definition str_or (a b : string) : string := if truthy a then a else b.

(** [x1 or x2 or ... or ""] over [d.get] results. *)
Fixpoint first_truthy (l : list (option string)) : string :=
  match l with
  | [] => EmptyString
  | o :: r => if truthy (default EmptyString o) then default EmptyString o else first_truthy r
  end.

Definition code (a : ascii) : N := N_of_ascii a.

Definition in_range (lo hi : N) (a : ascii) : bool :=
  (lo <=? code a)%N && (code a <=? hi)%N.

(** [str.lower] on one code point below 256: [A-Z], and the Latin-1
    capitals U+00C0..U+00DE without the multiplication sign U+00D7, move
    up by 32. *)
Definition is_upper (a : ascii) : bool :=
  in_range 65 90 a || (in_range 192 222 a && negb (code a =? 215)%N).

Definition lower_char (a : ascii) : ascii :=
  if is_upper a then ascii_of_N (code a + 32) else a.

Fixpoint lower (s : string) : string :=
  match s with
  | EmptyString => EmptyString
  | String a r => String (lower_char a) (lower r)
  end.

(** [str.isspace] on one code point below 256. *)
Definition is_space (a : ascii) : bool :=
  in_range 9 13 a || in_range 28 32 a || (code a =? 133)%N || (code a =? 160)%N.

Fixpoint lstrip (s : string) : string :=
  match s with
  | EmptyString => EmptyString
  | String a r => if is_space a then lstrip r else s
  end.

Fixpoint rstrip (s : string) : string :=
  match s with
  | EmptyString => EmptyString
  | String a r =>
      let r' := rstrip r in
      if is_space a && negb (truthy r') then EmptyString else String a r'
  end.

Definition strip (s : string) : string := rstrip (lstrip s).

(** [s[:n]] for [n >= 0]. *)
Fixpoint take (n : Z) (s : string) : string :=
  match s with
  | EmptyString => EmptyString
  | String a r => if (0 <? n)%Z then String a (take (n - 1) r) else EmptyString
  end.

(** [t in text]: [t] occurs in [text] as a contiguous substring. *)
Fixpoint contains (t text : string) : bool :=
  String.prefix t text ||
  match text with
  | EmptyString => false
  | String _ r => contains t r
  end.

(** [l[:n]] on a list, for any integer [n]: a negative [n] counts from
    the end. *)
Definition slice_to {A} (n : Z) (l : list A) : list A :=
  if (0 <=? n)%Z then firstn (Z.to_nat n) l
  else firstn (length l - Z.to_nat (- n)) l.

(** [str(n)] for a count and for an integer. *)
Definition str_of_nat (n : nat) : string :=
  NilZero.string_of_uint (Nat.to_uint n).

Definition str_of_Z (z : Z) : string :=
  NilZero.string_of_int (Z.to_int z).

(** The line feed. *)
Definition nl : string := String (ascii_of_nat 10) EmptyString.

(** [sep.join(l)] *)
Fixpoint join (sep : string) (l : list string) : string :=
  match l with
  | [] => EmptyString
  | [x] => x
  | x :: r => x ++ sep ++ join sep r
  end.

End Py.

(** ** Python floats: IEEE 754 binary64 *)

Module Float.

Definition float := spec_float.
Definition prec : Z := 53.
Definition emax : Z := 1024.

Definition add : float -> float -> float := SFadd prec emax.
Definition sub : float -> float -> float := SFsub prec emax.
Definition mul : float -> float -> float := SFmul prec emax.
Definition div : float -> float -> float := SFdiv prec emax.
Definition neg : float -> float := SFopp.

(** [a < b], [a <= b]; false as soon as one side is NaN. *)
Definition ltb : float -> float -> bool := SFltb.
Definition leb : float -> float -> bool := SFleb.

Definition nan : float := S754_nan.
Definition zero : float := S754_zero false.

Definition is_nan (x : float) : bool :=
  match x with
  | S754_nan => true
  | _ => false
  end.

(** Zero or a finite number: neither an infinity nor a NaN. *)
Definition is_finite (x : float) : bool :=
  match x with
  | S754_zero _ | S754_finite _ _ _ => true
  | _ => false
  end.

(** A finite number that is not zero. *)
Definition is_normal (x : float) : bool :=
  match x with
  | S754_finite _ _ _ => true
  | _ => false
  end.

(** Truth value of a float: only the two zeros are false. *)
Definition truthy (x : float) : bool :=
  match x with
  | S754_zero _ => false
  | _ => true
  end.

Definition of_Z (n : Z) : float := binary_normalize prec emax n 0 false.

(** The decimal literal [n/d] for integers below [2^53]: the division is
    correctly rounded, as the reading of the literal is. *)
Definition dec (n d : Z) : float := div (of_Z n) (of_Z d).

(** The built-in [max(a, b)] and [min(a, b)]: the second argument wins
    only when the comparison with the first holds. *)
Definition py_max (a b : float) : float := if ltb a b then b else a.
Definition py_min (a b : float) : float := if ltb b a then b else a.

(** [np.clip(x, lo, hi)] on a scalar: [minimum(maximum(x, lo), hi)],
    which hands a NaN through. *)
Definition np_maximum (a b : float) : float :=
  if is_nan a || is_nan b then nan else if ltb a b then b else a.
Definition np_minimum (a b : float) : float :=
  if is_nan a || is_nan b then nan else if ltb b a then b else a.
Definition np_clip (x lo hi : float) : float :=
  np_minimum (np_maximum x lo) hi.

End Float.

(** ** Values stored in result dictionaries *)

Inductive pyval :=
  | VNone
  | VBool (b : bool)
  | VInt (z : Z)
  | VStr (s : string).

Definition of_opt_str (o : option string) : pyval :=
  match o with
  | Some s => VStr s
  | None => VNone
  end.

(** ** The dictionaries the tools exchange *)

(** A search hit [{title, snippet, link}]. *)
Module Hit.
Record t := { title : string; snippet : string; link : string }.
End Hit.

(** [{"url": ..., "title": ...}] attached to an indexed document. *)
Module Metadata.
Record t := { url : option string; title : option string }.
End Metadata.

(** A document [{url, title, text}]; an index hit is [{text, metadata}]. *)
Module Doc.
Record t := {
  url : option string;
  title : option string;
  text : option string;
  metadata : option Metadata.t
}.
Definition make (u ti tx : string) : t :=
  {| url := Some u; title := Some ti; text := Some tx; metadata := None |}.
End Doc.

(** What [http_fetch] returns: [{url, status, title, text}], with [error]
    when the request failed. *)
Module Page.
Record t := {
  url : string;
  status : Z;
  title : string;
  text : string;
  error : option string
}.
End Page.

(** A document as the vector store keeps it. *)
Module LangDoc.
Record t := { page_content : string; metadata : Metadata.t }.
End LangDoc.

(** ** The outside world *)

Module World.

(** What [_ddg.invoke] gives back: a list of results, one result, a value
    of another shape (the tool's usual answer is plain text), or an
    exception. *)
Inductive ddg_result :=
  | DdgList (l : list (gmap string string))
  | DdgDict (r : gmap string string)
  | DdgOther
  | DdgRaise (e : string).

(** What iterating [dd.text(...)] gives: the results read, and the
    exception that ended the reading, if one did. *)
Record ddgs_result := {
  yielded : list (gmap string string);
  raised : option string
}.

(** [requests.get] followed by [raise_for_status]. *)
Inductive http_reply :=
  | HttpOk (status : Z) (body : string)
  | HttpRaise (e : string).

(** What [yf.Ticker] exposes; [None] stands for an exception, or for an
    empty table. A missing cell of a table is a NaN. *)
Record ticker := {
  info : option (gmap string Float.float);
  last_close : option Float.float;
  financials : option (string -> option Float.float)
}.

Record t := {
  (** [_ddg] and [DDGS]: [None] when the import failed. *)
  ddg_invoke : option (string -> ddg_result);
  ddgs_text : option (string -> Z -> ddgs_result);
  requests_get : string -> Z -> http_reply;
  (** [_extract_title], a regular expression over the page. *)
  extract_title : string -> string;
  (** [re.search(pat, t, re.I)]: group 1 of the leftmost match. *)
  re_search : string -> string -> option string;
  (** [float(s)]; [None] when it raises. *)
  float_of_str : string -> option Float.float;
  (** [yf.Ticker(ticker)]; [None] when it raises. *)
  yf_ticker : string -> option ticker;
  (** [OpenAIEmbeddings()]: the exception it raises, [None] when it
      returns. *)
  embeddings_error : option string;
  (** [FAISS.from_documents(lang_docs, emb)]: the exception it raises,
      [None] when it returns the store. *)
  faiss_error : list LangDoc.t -> option string;
  (** [store.similarity_search(query, k)] over the documents of a store. *)
  similarity_search : list LangDoc.t -> string -> Z -> list LangDoc.t;
  (** [app.agents.summarizer.summarize_docs] and the language model behind
      [extract_claims_tool]: text generation, of which no property below
      depends. *)
  summarize_docs : list Doc.t -> string -> string;
  llm_claims : string -> string -> Z -> option (list string);
  (** [_get_current_price] *)
  current_price : string -> option Float.float;
  (** [OUTPUTS_DIR], with its trailing separator. *)
  outputs_dir : string
}.

End World.

(** ** [app/agents/tools/tools.py] *)

Module Tools.

Import World.

(** *** Web search *)

(** [norm(r)] *)
Definition norm (r : gmap string string) : Hit.t :=
  {| Hit.title := Py.first_truthy [r !! "title"; r !! "t"];
     Hit.snippet := Py.first_truthy [r !! "snippet"; r !! "body"; r !! "abstract"];
     Hit.link := Py.first_truthy [r !! "link"; r !! "href"; r !! "url"] |}.

Definition error_hit (name e : string) : Hit.t :=
  {| Hit.title := name; Hit.snippet := e; Hit.link := "" |}.

(** [x.get("link") or x.get("title")] *)
Definition dedupe_key (x : Hit.t) : string :=
  Py.str_or (Hit.link x) (Hit.title x).

(** The loop under [# dedupe]: [seen] is the set of keys met so far, the
    result is what the loop appends to [final]. *)
Fixpoint dedupe (seen : gset string) (out : list Hit.t) : list Hit.t :=
  match out with
  | [] => []
  | x :: r =>
      let key := dedupe_key x in
      if Py.truthy key && negb (bool_decide (key ∈ seen))
      then x :: dedupe ({[key]} ∪ seen) r
      else dedupe seen r
  end.

(** [out] after the [_ddg] block. *)
Definition ddg_hits (w : World.t) (query : string) : list Hit.t :=
  match ddg_invoke w with
  | Some invoke =>
      match invoke query with
      | DdgList l => norm <$> l
      | DdgDict r => [norm r]
      | DdgOther => []
      | DdgRaise e => [error_hit "ddg_error" e]
      end
  | None => []
  end.

(** [out] after the [DDGS] block, entered while fewer than three hits
    carry a link. *)
Definition raw_hits (w : World.t) (query : string) (max_results : Z) : list Hit.t :=
  let out := ddg_hits w query in
  match ddgs_text w with
  | Some text =>
      if bool_decide (length (filter (fun x => Py.truthy (Hit.link x) = true) out) < 3)
      then
        let r := text query (max_results * 2)%Z in
        out ++ (norm <$> yielded r)
            ++ match raised r with
               | Some e => [error_hit "ddgs_error" e]
               | None => []
               end
      else out
  | None => out
  end.

Definition web_search (w : World.t) (query : string) (max_results : Z) : list Hit.t :=
  Py.slice_to max_results (dedupe ∅ (raw_hits w query max_results)).

Definition http_fetch (w : World.t) (url : string) (timeout : Z) : Page.t :=
  if negb (Py.truthy url)
  then {| Page.url := ""; Page.status := 0; Page.title := ""; Page.text := "";
          Page.error := None |}
  else
    match requests_get w url timeout with
    | HttpOk status body =>
        let html := Py.take 60000 body in
        {| Page.url := url; Page.status := status;
           Page.title := extract_title w html; Page.text := html;
           Page.error := None |}
    | HttpRaise e =>
        {| Page.url := url; Page.status := 0; Page.title := ""; Page.text := "";
           Page.error := Some e |}
    end.

(** *** KPIs *)

Definition number : string := "([0-9]+(?:\.[0-9]+)?)".

Definition KPI_PATTERNS : list (string * list string) :=
  [ ("p_e_ratio",
      [ "P\/E\s*(?:ratio|)\s*[:=]\s*" ++ number;
        "\bPE\s*ratio\s*[:=]\s*" ++ number ]);
    ("p_s_ratio",
      [ "P\/S\s*(?:ratio|)\s*[:=]\s*" ++ number;
        "price\s*to\s*sales\s*(?:ratio|)\s*[:=]\s*" ++ number ]);
    ("gross_margin",
      [ "gross\s*margin(?:\s*%|\s*percentage|)\s*[:=]?\s*" ++ number ++ "\s*%" ]);
    ("operating_margin",
      [ "operating\s*margin(?:\s*%|\s*percentage|)\s*[:=]?\s*" ++ number ++ "\s*%" ]) ].

Definition KPI_NAMES : list string :=
  ["p_e_ratio"; "p_s_ratio"; "gross_margin"; "operating_margin"].

(** The loop of [_extract_first] over the lowered text [t]. *)
Fixpoint extract_first_in (w : World.t) (t : string) (patterns : list string)
  : option Float.float :=
  match patterns with
  | [] => None
  | pat :: r =>
      match re_search w pat t ≫= float_of_str w with
      | Some v => Some v
      | None => extract_first_in w t r
      end
  end.

Definition _extract_first (w : World.t) (text : string) (patterns : list string)
  : option Float.float :=
  extract_first_in w (Py.lower text) patterns.

Definition is_margin (k : string) : bool :=
  bool_decide (k = "gross_margin") || bool_decide (k = "operating_margin").

(** One iteration of [for k, patterns in KPI_PATTERNS.items()]. *)
Definition extract_kpi (w : World.t) (text : string)
    (found : gmap string Float.float) (kp : string * list string)
  : gmap string Float.float :=
  match _extract_first w text kp.2 with
  | None => found
  | Some val =>
      let val := if is_margin kp.1 then Float.div val (Float.of_Z 100) else val in
      <[kp.1 := val]> found
  end.

Definition extract_kpis_from_page (w : World.t) (text : string)
  : gmap string Float.float :=
  foldl (extract_kpi w text) ∅ KPI_PATTERNS.

(** [x or None] for a float read from a dictionary. *)
Definition truthy_float (o : option Float.float) : option Float.float :=
  match o with
  | Some x => if Float.truthy x then Some x else None
  | None => None
  end.

(** [out[k] = v] when [v] is there. *)
Definition set_if (k : string) (o : option Float.float)
    (out : gmap string Float.float) : gmap string Float.float :=
  match o with
  | Some v => <[k := v]> out
  | None => out
  end.

(** [float(gp) / float(rev)] under [if rev and gp is not None]. *)
Definition margin (rev part : option Float.float) : option Float.float :=
  match truthy_float rev, part with
  | Some r, Some p => Some (Float.div p r)
  | _, _ => None
  end.

Definition _kpi_from_yfinance (w : World.t) (ticker : string)
  : gmap string Float.float :=
  match yf_ticker w ticker with
  | None => ∅
  | Some tk =>
      match info tk with
      | None => ∅
      | Some info =>
          let price := last_close tk in
          let pe := truthy_float (info !! "trailingPE") in
          let eps := truthy_float (info !! "trailingEps") in
          let pe :=
            match pe, truthy_float price, eps with
            | None, Some p, Some e => Some (Float.div p e)
            | _, _, _ => pe
            end in
          let out := set_if "p_e_ratio" (truthy_float pe) ∅ in
          let ps := truthy_float (info !! "priceToSalesTrailing12Months") in
          let out := set_if "p_s_ratio" ps out in
          match financials tk with
          | None => out
          | Some getv =>
              let rev := getv "Total Revenue" in
              let out := set_if "gross_margin" (margin rev (getv "Gross Profit")) out in
              set_if "operating_margin" (margin rev (getv "Operating Income")) out
          end
      end
  end.

(** [all(x in kpi for x in [...])] over the four KPI names. *)
Definition has_all_kpis (kpi : gmap string Float.float) : bool :=
  forallb (fun k => bool_decide (is_Some (kpi !! k))) KPI_NAMES.

(** The text [kpi_web_fallback] reads for one hit: the fetched page, or
    the snippet when the hit has no link or the page is empty. *)
Definition hit_text (w : World.t) (h : Hit.t) : string :=
  let url := Hit.link h in
  let page_text := if Py.truthy url then Page.text (http_fetch w url 15) else Hit.snippet h in
  Py.str_or page_text (Hit.snippet h).

(** [for h in hits_all], with its [continue] and its [break]. A key
    already in [results] keeps its value. *)
Fixpoint fallback_scan (w : World.t) (hits : list Hit.t)
    (results : gmap string Float.float) : gmap string Float.float :=
  match hits with
  | [] => results
  | h :: r =>
      let text := hit_text w h in
      if negb (Py.truthy text) then fallback_scan w r results
      else
        let results := results ∪ extract_kpis_from_page w text in
        if has_all_kpis results then results else fallback_scan w r results
  end.

Definition fallback_queries (ticker_or_query : string) : list string :=
  [ ticker_or_query ++ " P/E ratio";
    ticker_or_query ++ " price to sales ratio";
    ticker_or_query ++ " gross margin percentage";
    ticker_or_query ++ " operating margin percentage";
    ticker_or_query ++ " KPIs financial ratios" ].

Definition kpi_web_fallback (w : World.t) (ticker_or_query : string)
  : gmap string Float.float :=
  let hits_all := concat ((fun q => web_search w q 6) <$> fallback_queries ticker_or_query) in
  let results := fallback_scan w hits_all ∅ in
  (** [results.setdefault(kk, vv)] for each yfinance value *)
  results ∪ _kpi_from_yfinance w ticker_or_query.

(** *** The embedding index *)

(** [{"ok": False, "msg": ...}], [{"ok": True, "key": ..., "size": ...}],
    or the exception the call ends with. *)
Inductive build_result :=
  | BuildFailed (msg : string)
  | BuildOk (key : string) (size : nat)
  | BuildRaise (e : string).

(** [(d.get("text") or "")[:3000]] *)
Definition index_text (d : Doc.t) : string :=
  Py.take 3000 (Py.get_or (Doc.text d) "").

(** One iteration of [for d in docs]. *)
Definition index_step (lang_docs : list LangDoc.t) (d : Doc.t) : list LangDoc.t :=
  let txt := index_text d in
  if negb (Py.truthy (Py.strip txt)) then lang_docs
  else lang_docs ++
    [ {| LangDoc.page_content := txt;
         LangDoc.metadata :=
           {| Metadata.url := Some (default "" (Doc.url d));
              Metadata.title := Some (default "" (Doc.title d)) |} |} ].

(** [build_index]: [reg] is [_INDEX_REG], [now_ms] is
    [int(time.time()*1000)]. [OpenAIEmbeddings()] is called before the
    texts are looked at and [FAISS.from_documents] after the test for
    [lang_docs]; neither is guarded, so an exception of either ends the
    call, before [_INDEX_REG] is written. Of the store only the documents
    it holds are kept. *)
Definition build_index (w : World.t) (now_ms : Z) (reg : gmap string (list LangDoc.t))
    (docs : list Doc.t) : build_result * gmap string (list LangDoc.t) :=
  match docs with
  | [] => (BuildFailed "no docs", reg)
  | _ =>
      match embeddings_error w with
      | Some e => (BuildRaise e, reg)
      | None =>
          let lang_docs := foldl index_step [] docs in
          match lang_docs with
          | [] => (BuildFailed "no valid text", reg)
          | _ =>
              match faiss_error w lang_docs with
              | Some e => (BuildRaise e, reg)
              | None =>
                  let key := "idx_" ++ Py.str_of_Z now_ms in
                  (BuildOk key (length lang_docs), <[key := lang_docs]> reg)
              end
          end
      end
  end.

Definition search_index (w : World.t) (reg : gmap string (list LangDoc.t))
    (key query : string) (k : Z) : list Doc.t :=
  match reg !! key with
  | None => []
  | Some store =>
      (fun d => {| Doc.url := None; Doc.title := None;
                   Doc.text := Some (LangDoc.page_content d);
                   Doc.metadata := Some (LangDoc.metadata d) |})
      <$> similarity_search w store query k
  end.

(** *** Claims *)

(** [extract_claims_tool]: [llm_claims] gives the stripped, non-blank
    lines of the model's answer, [None] when the call raises. *)
Definition extract_claims_tool (w : World.t) (summary topic : string) (n : Z)
  : list string :=
  match llm_claims w summary topic n with
  | Some lines => Py.slice_to n lines
  | None => []
  end.

(** The character class [[A-Za-z0-9\-]]. *)
Definition is_tok_char (a : ascii) : bool :=
  Py.in_range 65 90 a || Py.in_range 97 122 a || Py.in_range 48 57 a
  || (Py.code a =? 45)%N.

Definition emit (cur : string) : list string :=
  if Py.truthy cur then [cur] else [].

(** [re.findall(r"[A-Za-z0-9\-]+", s)]: the maximal runs of class
    characters, left to right; [cur] is the run being read. *)
Fixpoint findall_from (cur s : string) : list string :=
  match s with
  | EmptyString => emit cur
  | String a r =>
      if is_tok_char a then findall_from (cur ++ String a EmptyString) r
      else emit cur ++ findall_from EmptyString r
  end.

Definition findall (s : string) : list string := findall_from EmptyString s.

(** [[t for t in re.findall(..., c.lower()) if len(t) > 3]] *)
Definition tokens (c : string) : list string :=
  filter (fun t => 3 < String.length t) (findall (Py.lower c)).

(** [(s.get('text','') or '').lower()] *)
Definition source_text (s : Doc.t) : string :=
  Py.lower (Py.get_or (Doc.text s) "").

(** [sum(1 for t in toks if t in text)] *)
Definition overlap_of (toks : list string) (s : Doc.t) : nat :=
  length (filter (fun t => Py.contains t (source_text s) = true) toks).

(** [(s.get('metadata') or {}).get('url')] *)
Definition metadata_url (s : Doc.t) : option string :=
  Doc.metadata s ≫= Metadata.url.

(** [s.get('url') or (s.get('metadata') or {}).get('url')] *)
Definition source_url (s : Doc.t) : option string :=
  match Doc.url s with
  | Some u => if Py.truthy u then Some u else metadata_url s
  | None => metadata_url s
  end.

(** The three variables of the inner loop. *)
Record acc := { verdict : bool; url : option string; overlap_max : nat }.

(** [verdict=False; url=None; overlap_max=0] *)
Definition init : acc :=
  {| verdict := false; url := None; overlap_max := 0 |}.

(** One iteration of [for s in sources]. *)
Definition step (toks : list string) (min_overlap : Z) (a : acc) (s : Doc.t) : acc :=
  let overlap := overlap_of toks s in
  let a1 :=
    if bool_decide (overlap_max a < overlap)
    then {| verdict := verdict a; url := source_url s; overlap_max := overlap |}
    else a in
  if bool_decide (min_overlap ≤ Z.of_nat overlap)%Z
  then {| verdict := true; url := url a1; overlap_max := overlap_max a1 |}
  else a1.

Definition scan (toks : list string) (min_overlap : Z) (sources : list Doc.t) : acc :=
  foldl (step toks min_overlap) init sources.

(** The dictionary appended to [out] for the claim [c]. *)
Definition entry (c : string) (a : acc) : gmap string pyval :=
  <["claim" := VStr c]>
  (<["verdict" := VBool (verdict a)]>
  (<["evidence_url" := of_opt_str (url a)]>
  (<["note" := VStr ("overlap=" ++ Py.str_of_nat (overlap_max a))]> ∅))).

Definition verify_one (sources : list Doc.t) (min_overlap : Z) (c : string)
  : gmap string pyval :=
  entry c (scan (tokens c) min_overlap sources).

Definition verify_claims_tool (claims : list string) (sources : list Doc.t)
    (min_overlap : Z) : list (gmap string pyval) :=
  verify_one sources min_overlap <$> claims.

(** *** Price projection *)

(** [adj += min(max((m - mid) * scale, lo), hi)] under [if m:] *)
Definition margin_adj (m : option Float.float) (mid scale lo hi adj : Float.float)
  : Float.float :=
  match m with
  | Some x =>
      if Float.truthy x
      then Float.add adj
             (Float.py_min (Float.py_max (Float.mul (Float.sub x mid) scale) lo) hi)
      else adj
  | None => adj
  end.

(** The block under [if pe and pe>0]. *)
Definition pe_adj (pe : option Float.float) (adj : Float.float) : Float.float :=
  match pe with
  | Some x =>
      if Float.truthy x && Float.ltb Float.zero x then
        if Float.ltb x (Float.of_Z 20) then Float.add adj (Float.dec 2 100)
        else if Float.ltb (Float.of_Z 50) x then Float.sub adj (Float.dec 3 100)
        else adj
      else adj
  | None => adj
  end.

(** [adj += np.clip(v * scale, lo, hi)] under [if v is not None] *)
Definition clip_adj (v : option Float.float) (scale lo hi adj : Float.float)
  : Float.float :=
  match v with
  | Some x => Float.add adj (Float.np_clip (Float.mul x scale) lo hi)
  | None => adj
  end.

Definition _estimate_growth (kpi : gmap string Float.float)
    (momentum cagr : option Float.float) : Float.float :=
  let base := Float.dec 8 100 in
  let gm := kpi !! "gross_margin" in
  let om := kpi !! "operating_margin" in
  let pe := kpi !! "p_e_ratio" in
  let adj := Float.zero in
  let adj := margin_adj gm (Float.dec 35 100) (Float.dec 5 10)
               (Float.neg (Float.dec 5 100)) (Float.dec 10 100) adj in
  let adj := margin_adj om (Float.dec 15 100) (Float.dec 7 10)
               (Float.neg (Float.dec 5 100)) (Float.dec 12 100) adj in
  let adj := pe_adj pe adj in
  let adj := clip_adj cagr (Float.dec 5 10)
               (Float.neg (Float.dec 5 100)) (Float.dec 10 100) adj in
  let adj := clip_adj momentum (Float.dec 3 10)
               (Float.neg (Float.dec 5 100)) (Float.dec 6 100) adj in
  Float.py_max (Float.add base adj) (Float.dec 1 100).

(** What [price_projection_chart] returns of its computation: the growth
    rate [g] and the starting price [p0]; the two charts are files. *)
Definition price_projection_chart (w : World.t) (ticker : string)
    (kpi : gmap string Float.float) (momentum_3m cagr_3y : option Float.float)
  : Float.float * Float.float :=
  let p0 :=
    match truthy_float (current_price w ticker) with
    | Some p => p
    | None => Float.of_Z 100
    end in
  (_estimate_growth kpi momentum_3m cagr_3y, p0).

End Tools.

(** ** The run state ([app/graph/state.py]) *)

(** An entry of [trace]: [{'node': ..., 't': ...}], with a count under
    one more key in the entry a stage writes when it is done. *)
Module TraceEvent.
Record t := {
  node : string;
  t_ : Float.float;
  count : option (string * nat)
}.
End TraceEvent.

(** [ResearchState], a [TypedDict] with [total=False]: every key may be
    absent. *)
Module State.
Record t := {
  query : option string;
  ticker : option string;
  web_results : option (list Hit.t);
  docs : option (list Doc.t);
  summary : option string;
  claims : option (list string);
  checked_claims : option (list (gmap string pyval));
  report_html : option string;
  trace : option (list TraceEvent.t)
}.

(** [graph.invoke({'query': query, 'ticker': ticker})] *)
Definition initial (q : string) (tk : option string) : t :=
  {| query := Some q; ticker := tk; web_results := None; docs := None;
     summary := None; claims := None; checked_claims := None;
     report_html := None; trace := None |}.

(** [state.setdefault('trace', []).append(e)] *)
Definition log (e : TraceEvent.t) (s : t) : t :=
  {| query := query s; ticker := ticker s; web_results := web_results s;
     docs := docs s; summary := summary s; claims := claims s;
     checked_claims := checked_claims s; report_html := report_html s;
     trace := Some (default [] (trace s) ++ [e])%list |}.

Definition set_research (hits : list Hit.t) (ds : list Doc.t) (s : t) : t :=
  {| query := query s; ticker := ticker s; web_results := Some hits;
     docs := Some ds; summary := summary s; claims := claims s;
     checked_claims := checked_claims s; report_html := report_html s;
     trace := trace s |}.

Definition set_curated (ds : list Doc.t) (sm : string) (s : t) : t :=
  {| query := query s; ticker := ticker s; web_results := web_results s;
     docs := Some ds; summary := Some sm; claims := claims s;
     checked_claims := checked_claims s; report_html := report_html s;
     trace := trace s |}.

Definition set_checked (cs : list string) (checked : list (gmap string pyval))
    (s : t) : t :=
  {| query := query s; ticker := ticker s; web_results := web_results s;
     docs := docs s; summary := summary s; claims := Some cs;
     checked_claims := Some checked; report_html := report_html s;
     trace := trace s |}.

Definition set_report (path : string) (s : t) : t :=
  {| query := query s; ticker := ticker s; web_results := web_results s;
     docs := docs s; summary := summary s; claims := claims s;
     checked_claims := checked_claims s; report_html := Some path;
     trace := trace s |}.
End State.

(** ** [app/agents/researcher.py] *)

Module Researcher.

(** The links fetched: those of the first six hits that carry one. *)
Definition tool_calls (hits : list Hit.t) : list string :=
  filter (fun u => Py.truthy u = true) (Hit.link <$> Py.slice_to 6 hits).

(** The document kept of a fetched page. *)
Definition doc_of_page (p : Page.t) : Doc.t :=
  Doc.make (Page.url p) (Page.title p) (Page.text p).

(** The document of the [else] branch: the first hit's link, title and
    snippet, or three empty strings. *)
Definition pseudo_doc (hits : list Hit.t) : Doc.t :=
  match hits with
  | h :: _ => Doc.make (Hit.link h) (Hit.title h) (Hit.snippet h)
  | [] => Doc.make "" "" ""
  end.

Definition fetch_docs (w : World.t) (hits : list Hit.t) : list Doc.t :=
  match tool_calls hits with
  | [] => [pseudo_doc hits]
  | calls => (fun u => doc_of_page (Tools.http_fetch w u 15)) <$> calls
  end.

(** [node]; [t0] and [t1] are its two readings of [time.time()]. *)
Definition node (w : World.t) (t0 t1 : Float.float) (state : State.t) : State.t :=
  let state :=
    State.log {| TraceEvent.node := "researcher"; TraceEvent.t_ := t0;
                 TraceEvent.count := None |} state in
  let q := Py.first_truthy [State.query state; State.ticker state] in
  let hits := Tools.web_search w q 10 in
  let docs := fetch_docs w hits in
  let state := State.set_research hits docs state in
  State.log {| TraceEvent.node := "researcher:done"; TraceEvent.t_ := t1;
               TraceEvent.count := Some ("docs", length (default [] (State.docs state))) |}
    state.

End Researcher.

(** ** [app/agents/curator.py] *)

Module Curator.

(** The document made of an index hit:
    [{"url": metadata.url, "title": metadata.title, "text": h.text}]. *)
Definition doc_of_hit (h : Doc.t) : Doc.t :=
  Doc.make (default "" (Doc.metadata h ≫= Metadata.url))
           (default "" (Doc.metadata h ≫= Metadata.title))
           (default "" (Doc.text h)).

(** [selected]: the index hits when the index was built and answers,
    the first six documents otherwise. A [build_index] that raises is
    answered by [ToolNode] with an error message in place of the result
    (its handling of tool errors), which [_parse] leaves a string: no
    [dict], so the search is skipped. *)
Definition select (w : World.t) (reg : gmap string (list LangDoc.t))
    (idx : Tools.build_result) (q : string) (docs : list Doc.t) : list Doc.t :=
  match idx with
  | Tools.BuildOk key _ =>
      if Py.truthy key then
        match Tools.search_index w reg key q 6 with
        | [] => Py.slice_to 6 docs
        | hits => doc_of_hit <$> hits
        end
      else Py.slice_to 6 docs
  | Tools.BuildFailed _ => Py.slice_to 6 docs
  | Tools.BuildRaise _ => Py.slice_to 6 docs
  end.

(** [node]; [reg] is [_INDEX_REG], [t0] and [t1] are the two readings
    of the clock for the trace, [now_ms] the one [build_index] makes. *)
Definition node (w : World.t) (t0 t1 : Float.float) (now_ms : Z)
    (reg : gmap string (list LangDoc.t)) (state : State.t)
  : State.t * gmap string (list LangDoc.t) :=
  let state :=
    State.log {| TraceEvent.node := "curator"; TraceEvent.t_ := t0;
                 TraceEvent.count := None |} state in
  let q := default "" (State.query state) in
  let docs := default [] (State.docs state) in
  let '(idx, reg) := Tools.build_index w now_ms reg docs in
  let selected := select w reg idx q docs in
  let state := State.set_curated selected (World.summarize_docs w selected q) state in
  (State.log {| TraceEvent.node := "curator:done"; TraceEvent.t_ := t1;
                TraceEvent.count := Some ("docs", length selected) |} state,
   reg).

End Curator.

(** ** [app/agents/fact_checker.py] *)

Module FactChecker.

(** [node]; [min_overlap] is [int(os.getenv('MIN_EVIDENCE_OVERLAP', ...))]. *)
Definition node (w : World.t) (t0 t1 : Float.float) (min_overlap : Z)
    (state : State.t) : State.t :=
  let state :=
    State.log {| TraceEvent.node := "fact_checker"; TraceEvent.t_ := t0;
                 TraceEvent.count := None |} state in
  let q := default "" (State.query state) in
  let docs := default [] (State.docs state) in
  let sm := default "" (State.summary state) in
  let claims := Tools.extract_claims_tool w sm q 6 in
  let checked := Tools.verify_claims_tool claims docs min_overlap in
  let state := State.set_checked claims checked state in
  State.log {| TraceEvent.node := "fact_checker:done"; TraceEvent.t_ := t1;
               TraceEvent.count := Some ("claims", length checked) |} state.

End FactChecker.

(** ** [app/agents/writer.py] *)

Module Writer.

(** ["\n\n".join([d.get("text","")[:6000] for d in docs])[:24000]] *)
Definition aggregate (docs : list Doc.t) : string :=
  Py.take 24000
    (Py.join (Py.nl ++ Py.nl)
       ((fun d => Py.take 6000 (default "" (Doc.text d))) <$> docs)).

(** [kpi.update(fb)]: every key of [fb] is written into [kpi]. *)
Definition update (kpi fb : gmap string Float.float) : gmap string Float.float :=
  fb ∪ kpi.

(** The block under [# KPIs]: what is read off the documents, then the
    fallback when one of the four names is missing. *)
Definition kpis (w : World.t) (t : option string) (q : string) (docs : list Doc.t)
  : gmap string Float.float :=
  let kpi := Tools.extract_kpis_from_page w (aggregate docs) in
  if negb (Tools.has_all_kpis kpi)
  then update kpi (Tools.kpi_web_fallback w (Py.get_or t q))
  else kpi.

(** [node]; [now_s] is [int(time.time())]. The report page, the sources
    file and the two charts are files; of the state only [report_html]
    changes. *)
Definition node (w : World.t) (now_s : Z) (state : State.t) : State.t :=
  let q := default "" (State.query state) in
  let t := State.ticker state in
  let docs := default [] (State.docs state) in
  let kpi := kpis w t q docs in
  let proj := Tools.price_projection_chart w (Py.get_or t q) kpi None None in
  let out := World.outputs_dir w ++ "report_" ++ Py.str_of_Z now_s ++ ".html" in
  State.set_report out state.

End Writer.

(** ** The graph ([app/graph/builder.py]) *)

Module Graph.

Inductive stage := Researcher | Curator | FactChecker | Writer.

(** [researcher -> curator -> fact_checker -> writer -> END] *)
Definition stages : list stage := [Researcher; Curator; FactChecker; Writer].

(** What a run reads besides its state: the providers, the clock and
    the environment variable. *)
Record env := {
  world : World.t;
  clock : stage -> Float.float * Float.float;
  index_ms : Z;
  report_s : Z;
  min_overlap : Z
}.

(** One stage on the state and the index registry. *)
Definition run_stage (e : env) (st : stage)
    (sr : State.t * gmap string (list LangDoc.t))
  : State.t * gmap string (list LangDoc.t) :=
  let '(t0, t1) := clock e st in
  match st with
  | Researcher => (Researcher.node (world e) t0 t1 sr.1, sr.2)
  | Curator => Curator.node (world e) t0 t1 (index_ms e) sr.2 sr.1
  | FactChecker => (FactChecker.node (world e) t0 t1 (min_overlap e) sr.1, sr.2)
  | Writer => (Writer.node (world e) (report_s e) sr.1, sr.2)
  end.

Definition invoke (e : env) (sr : State.t * gmap string (list LangDoc.t))
  : State.t * gmap string (list LangDoc.t) :=
  foldl (fun sr st => run_stage e st sr) sr stages.

End Graph.

(** ** [app/agents/summarizer.py] *)

Module Summarizer.

(** [f"TITLE: {title[:80]}\nURL: {url}\nTEXT: {text[:1500]}"] *)
Definition excerpt (d : Doc.t) : string :=
  "TITLE: " ++ Py.take 80 (default "" (Doc.title d)) ++ Py.nl
  ++ "URL: " ++ default "" (Doc.url d) ++ Py.nl
  ++ "TEXT: " ++ Py.take 1500 (default "" (Doc.text d)).

(** ["\n".join(excerpts)] over [docs[:8]] *)
Definition excerpts (docs : list Doc.t) : string :=
  Py.join Py.nl (excerpt <$> Py.slice_to 8 docs).

(** [s.replace("\n", " ")] *)
Fixpoint replace_nl (s : string) : string :=
  match s with
  | EmptyString => EmptyString
  | String a r =>
      String (if (Py.code a =? 10)%N then ascii_of_nat 32 else a) (replace_nl r)
  end.

(** The dash of the bullets, U+2014, in its UTF-8 encoding. *)
Definition dash : string := " — ".

(** [f"- {title} — {snip} [{url}]"] *)
Definition bullet (d : Doc.t) : string :=
  "- " ++ Py.take 120 (default "" (Doc.title d)) ++ dash
  ++ replace_nl (Py.take 280 (Py.get_or (Doc.text d) ""))
  ++ " [" ++ default "" (Doc.url d) ++ "]".

Definition header : string :=
  "Key points from retrieved sources (heuristic summary):".

(** The list of bullets the function falls back to. *)
Definition fallback (docs : list Doc.t) : string :=
  header ++ Py.nl ++ Py.join Py.nl (bullet <$> Py.slice_to 5 docs).

(** [summarize_docs]; [load_prompt query excerpts] is
    [_load_prompt("summarize.txt", query=..., excerpts=...)] and [llm] the
    text the model answers, [None] when the call raises. *)
Definition summarize_docs (load_prompt : string -> string -> string)
    (llm : string -> option string) (docs : list Doc.t) (query : string) : string :=
  match llm (load_prompt query (excerpts docs)) with
  | Some content =>
      let out := Py.strip content in
      if Py.truthy out then out else fallback docs
  | None => fallback docs
  end.

End Summarizer.

(** ** The sources file of [app/agents/writer.py] *)

Module Sources.

(** The entries [_render_sources_json] writes under ["sources"]. *)
Definition item (d : Doc.t) : Doc.t :=
  let url := default "" (Doc.url d) in
  Doc.make url (Py.str_or (default "" (Doc.title d)) url)
           (Py.take 1200 (Py.get_or (Doc.text d) "")).

Definition items (docs : list Doc.t) : list Doc.t :=
  item <$> Py.slice_to 12 docs.

End Sources.

(** ** [app/main.py] *)

Module Main.

(** [(request.form.get('mode') or 'Normal').lower()] *)
Definition mode_of (form_mode : option string) : string :=
  Py.lower (Py.get_or form_mode "Normal").

(** The value [run_research] leaves in [MIN_EVIDENCE_OVERLAP], as
    [fact_checker.node] reads it back. *)
Definition min_evidence_overlap (form_mode : option string) : Z :=
  if bool_decide (mode_of form_mode = "strict") then 2
  else if bool_decide (mode_of form_mode = "relaxed") then 1
  else 1.

(** The run [run_research] starts: [query] is [form.get('query') or ''],
    [ticker] is [form.get('ticker') or None]; [e] gives the providers and
    the clock. *)
Definition run_research (e : Graph.env) (form_query form_ticker form_mode : option string)
    (reg : gmap string (list LangDoc.t))
  : State.t * gmap string (list LangDoc.t) :=
  let query := Py.get_or form_query "" in
  let ticker :=
    match form_ticker with
    | Some t => if Py.truthy t then Some t else None
    | None => None
    end in
  Graph.invoke
    {| Graph.world := Graph.world e; Graph.clock := Graph.clock e;
       Graph.index_ms := Graph.index_ms e; Graph.report_s := Graph.report_s e;
       Graph.min_overlap := min_evidence_overlap form_mode |}
    (State.initial query ticker, reg).

End Main.

(** * Part II: the vocabulary of the specification *)

Module Spec.

Import Tools.

(** The largest overlap any source reaches; 0 when there is no source. *)
Definition max_overlap (toks : list string) (sources : list Doc.t) : nat :=
  max_list (overlap_of toks <$> sources).

(** Some source reaches the threshold. *)
Definition reaches (toks : list string) (min_overlap : Z) (sources : list Doc.t) : bool :=
  existsb (fun s => bool_decide (min_overlap ≤ Z.of_nat (overlap_of toks s))%Z) sources.

(** The first source, in list order, whose overlap is the largest one. *)
Definition first_best (toks : list string) (sources : list Doc.t) : option Doc.t :=
  find (fun s => bool_decide (overlap_of toks s = max_overlap toks sources)) sources.

(** The URL of the first best source once an overlap is positive, and
    none before. *)
Definition best_url (toks : list string) (sources : list Doc.t) : option string :=
  if bool_decide (max_overlap toks sources = 0) then None
  else first_best toks sources ≫= source_url.

(** A lower case letter, a digit or a hyphen. *)
Definition is_low_tok (a : ascii) : bool :=
  Py.in_range 97 122 a || Py.in_range 48 57 a || (Py.code a =? 45)%N.

(** Every character of [t] is a lower case letter, a digit or a hyphen. *)
Fixpoint lower_token (t : string) : bool :=
  match t with
  | EmptyString => true
  | String a r => is_low_tok a && lower_token r
  end.

(** The verdict rule as the specification words it: one result per
    claim, in order, whose verdict is the test of the largest overlap
    against the threshold. *)
Definition verdict_by_maximum (claims : list string) (sources : list Doc.t)
    (min_overlap : Z) : Prop :=
  Forall2
    (fun c v =>
       v !! "claim" = Some (VStr c) ∧
       v !! "verdict"
       = Some (VBool (bool_decide (min_overlap ≤ Z.of_nat (max_overlap (tokens c) sources))%Z)))
    claims (verify_claims_tool claims sources min_overlap).

(** Each result carries an integer [overlap_score]. *)
Definition carries_overlap_score (claims : list string) (sources : list Doc.t)
    (min_overlap : Z) : Prop :=
  Forall2
    (fun c v =>
       v !! "overlap_score" = Some (VInt (Z.of_nat (max_overlap (tokens c) sources))))
    claims (verify_claims_tool claims sources min_overlap).

(** Each result's [evidence_url] is the URL of a source whose overlap is
    the largest one. *)
Definition evidence_is_best_source (claims : list string) (sources : list Doc.t)
    (min_overlap : Z) : Prop :=
  Forall2
    (fun c v =>
       ∃ s, s ∈ sources ∧
            overlap_of (tokens c) s = max_overlap (tokens c) sources ∧
            v !! "evidence_url" = Some (of_opt_str (source_url s)))
    claims (verify_claims_tool claims sources min_overlap).

(** The output holds at most [max_results] entries. *)
Definition at_most_max_results (w : World.t) (query : string) (max_results : Z) : Prop :=
  (Z.of_nat (length (web_search w query max_results)) ≤ max_results)%Z.

(** [x] stands in [l] with no entry of its key before it. *)
Definition first_seen (l : list Hit.t) (x : Hit.t) : Prop :=
  ∃ pre post, l = (pre ++ x :: post)%list ∧
              Forall (fun y => dedupe_key y ≠ dedupe_key x) pre.

(** Every character of [s] is white space. *)
Fixpoint all_space (s : string) : bool :=
  match s with
  | EmptyString => true
  | String a r => Py.is_space a && all_space r
  end.

(** The text of [d] is blank after truncation to 3000 characters. *)
Definition blank (d : Doc.t) : bool :=
  all_space (Py.take 3000 (default "" (Doc.text d))).

(** [build_index] answered [{"ok": False, ...}]. *)
Definition is_failed (r : build_result) : bool :=
  match r with
  | BuildFailed _ => true
  | BuildOk _ _ => false
  | BuildRaise _ => false
  end.


(** The name a stage writes into its trace events. *)
Definition stage_name (st : Graph.stage) : string :=
  match st with
  | Graph.Researcher => "researcher"
  | Graph.Curator => "curator"
  | Graph.FactChecker => "fact_checker"
  | Graph.Writer => "writer"
  end.

(** [state.get('trace', [])] *)
Definition trace_of (s : State.t) : list TraceEvent.t := default [] (State.trace s).

(** The stage appended its two events to the trace: one under its name,
    one under its name followed by [:done], the second with a count. *)
Definition appends_start_and_done (st : Graph.stage) (before after : State.t) : Prop :=
  ∃ e0 e1,
    trace_of after = (trace_of before ++ [e0; e1])%list ∧
    TraceEvent.node e0 = stage_name st ∧
    TraceEvent.node e1 = stage_name st ++ ":done" ∧
    is_Some (TraceEvent.count e1).

End Spec.

(** ** Sample inputs *)

Module Sample.

Import Float Tools.

(** The claim and the documents of the examples. *)
Definition claim_2024 : string := "Revenue grew significantly in 2024".

(** A claim none of whose tokens occurs in the documents. *)
Definition claim_snow : string := "Heavy snowfall expected tomorrow".

Definition doc_revenue : Doc.t :=
  Doc.make "https://example.com/a" "Results" "Revenue GREW in 2024".

Definition doc_weather : Doc.t :=
  Doc.make "https://example.com/w" "Weather" "Sunny spells and light rain".

Definition doc_spaces : Doc.t := Doc.make "https://example.com/s" "Spaces" "   ".

Definition doc_pe : Doc.t :=
  Doc.make "https://example.com/pe" "Valuation" "Trailing P/E ratio: 25 at the close".

(** Sample providers: no search, page, market data or language model
    answers; the embedding provider does, and the index finds nothing. *)
Definition offline : World.t :=
  {| World.ddg_invoke := None;
     World.ddgs_text := None;
     World.requests_get := fun _ _ => World.HttpRaise "unreachable";
     World.extract_title := fun _ => "";
     World.re_search := fun _ _ => None;
     World.float_of_str := fun _ => None;
     World.yf_ticker := fun _ => None;
     World.embeddings_error := None;
     World.faiss_error := fun _ => None;
     World.similarity_search := fun _ _ _ => [];
     World.summarize_docs := fun _ _ => "Key points from retrieved sources";
     World.llm_claims := fun _ _ _ => None;
     World.current_price := fun _ => None;
     World.outputs_dir := "outputs/" |}.

(** [w] with [_ddg] answering [f]. *)
Definition with_ddg (f : string -> World.ddg_result) (w : World.t) : World.t :=
  {| World.ddg_invoke := Some f;
     World.ddgs_text := World.ddgs_text w;
     World.requests_get := World.requests_get w;
     World.extract_title := World.extract_title w;
     World.re_search := World.re_search w;
     World.float_of_str := World.float_of_str w;
     World.yf_ticker := World.yf_ticker w;
     World.embeddings_error := World.embeddings_error w;
     World.faiss_error := World.faiss_error w;
     World.similarity_search := World.similarity_search w;
     World.summarize_docs := World.summarize_docs w;
     World.llm_claims := World.llm_claims w;
     World.current_price := World.current_price w;
     World.outputs_dir := World.outputs_dir w |}.

(** [w] with an embedding provider that raises: [OpenAIEmbeddings()]
    with [setup], [FAISS.from_documents] with [indexing]. *)
Definition with_embedding_errors (setup indexing : option string) (w : World.t)
  : World.t :=
  {| World.ddg_invoke := World.ddg_invoke w;
     World.ddgs_text := World.ddgs_text w;
     World.requests_get := World.requests_get w;
     World.extract_title := World.extract_title w;
     World.re_search := World.re_search w;
     World.float_of_str := World.float_of_str w;
     World.yf_ticker := World.yf_ticker w;
     World.embeddings_error := setup;
     World.faiss_error := fun _ => indexing;
     World.similarity_search := World.similarity_search w;
     World.summarize_docs := World.summarize_docs w;
     World.llm_claims := World.llm_claims w;
     World.current_price := World.current_price w;
     World.outputs_dir := World.outputs_dir w |}.

(** No API key: setting up the embeddings raises. *)
Definition no_api_key : World.t :=
  with_embedding_errors (Some "api_key must be set") None offline.

(** A result as the search provider words it. *)
Definition raw (title link : string) : gmap string string :=
  {[ "title" := title; "href" := link; "body" := "..." ]}.

(** Three results, the first two under one link. *)
Definition three_results : World.t :=
  with_ddg
    (fun _ => World.DdgList
       [raw "A" "https://a.example"; raw "A again" "https://a.example";
        raw "B" "https://b.example"])
    offline.

(** One result, without a link. *)
Definition no_links : World.t :=
  with_ddg (fun _ => World.DdgList [raw "Only a title" ""]) offline.

(** [n] spaces. *)
Fixpoint spaces (n : nat) : string :=
  match n with
  | O => EmptyString
  | S n => String (ascii_of_nat 32) (spaces n)
  end.

(** Text behind 3000 spaces: not blank, and blank once cut to 3000
    characters. *)
Definition doc_late_text : Doc.t :=
  Doc.make "https://example.com/l" "Late" (spaces 3000 ++ "Revenue grew").

(** [w] with [re.search] and [float] answering [re] and [fl]. *)
Definition with_regex (re : string -> string -> option string)
    (fl : string -> option float) (w : World.t) : World.t :=
  {| World.ddg_invoke := World.ddg_invoke w;
     World.ddgs_text := World.ddgs_text w;
     World.requests_get := World.requests_get w;
     World.extract_title := World.extract_title w;
     World.re_search := re;
     World.float_of_str := fl;
     World.yf_ticker := World.yf_ticker w;
     World.embeddings_error := World.embeddings_error w;
     World.faiss_error := World.faiss_error w;
     World.similarity_search := World.similarity_search w;
     World.summarize_docs := World.summarize_docs w;
     World.llm_claims := World.llm_claims w;
     World.current_price := World.current_price w;
     World.outputs_dir := World.outputs_dir w |}.

(** [w] with [yf.Ticker] answering [tk] for every symbol. *)
Definition with_ticker (tk : World.ticker) (w : World.t) : World.t :=
  {| World.ddg_invoke := World.ddg_invoke w;
     World.ddgs_text := World.ddgs_text w;
     World.requests_get := World.requests_get w;
     World.extract_title := World.extract_title w;
     World.re_search := World.re_search w;
     World.float_of_str := World.float_of_str w;
     World.yf_ticker := fun _ => Some tk;
     World.embeddings_error := World.embeddings_error w;
     World.faiss_error := World.faiss_error w;
     World.similarity_search := World.similarity_search w;
     World.summarize_docs := World.summarize_docs w;
     World.llm_claims := World.llm_claims w;
     World.current_price := World.current_price w;
     World.outputs_dir := World.outputs_dir w |}.

(** A page gives the P/E ratio 25 and the market data provider 30:
    [re.search] answers the first P/E pattern on a text that holds
    ["p/e ratio: 25"], and [info] holds [trailingPE]. *)
Definition pe_world : World.t :=
  with_regex
    (fun pat t =>
       if bool_decide (pat = "P\/E\s*(?:ratio|)\s*[:=]\s*" ++ number)
          && Py.contains "p/e ratio: 25" t
       then Some "25" else None)
    (fun s => if bool_decide (s = "25") then Some (of_Z 25) else None)
    (with_ticker
       {| World.info := Some {[ "trailingPE" := of_Z 30 ]};
          World.last_close := None;
          World.financials := None |}
       offline).

(** The market data provider with a revenue and no gross profit in the
    latest column: the missing cell reads as NaN. *)
Definition nan_world : World.t :=
  with_ticker
    {| World.info := Some ∅;
       World.last_close := None;
       World.financials := Some (fun row =>
         if bool_decide (row = "Total Revenue") then Some (of_Z 1000)
         else if bool_decide (row = "Gross Profit") then Some nan
         else None) |}
    offline.

(** A run with nothing answering, as [main.run_research] starts it. *)
Definition offline_env : Graph.env :=
  {| Graph.world := offline;
     Graph.clock := fun _ => (of_Z 1700000000, of_Z 1700000001);
     Graph.index_ms := 1700000000500;
     Graph.report_s := 1700000002;
     Graph.min_overlap := 1 |}.

End Sample.

(** ** Further vocabulary and sample values *)

Module Cases.

Import Float Tools Sample.

(** Three results under three links, and the same with a second provider
    that fails. *)
Definition three_links : World.t :=
  with_ddg
    (fun _ => World.DdgList
       [raw "A" "https://a.example"; raw "B" "https://b.example";
        raw "C" "https://c.example"])
    offline.

Definition three_links_failing : World.t :=
  {| World.ddg_invoke := World.ddg_invoke three_links;
     World.ddgs_text := Some (fun _ _ => {| World.yielded := []; World.raised := Some "timeout" |});
     World.requests_get := World.requests_get three_links;
     World.extract_title := World.extract_title three_links;
     World.re_search := World.re_search three_links;
     World.float_of_str := World.float_of_str three_links;
     World.yf_ticker := World.yf_ticker three_links;
     World.embeddings_error := World.embeddings_error three_links;
     World.faiss_error := World.faiss_error three_links;
     World.similarity_search := World.similarity_search three_links;
     World.summarize_docs := World.summarize_docs three_links;
     World.llm_claims := World.llm_claims three_links;
     World.current_price := World.current_price three_links;
     World.outputs_dir := World.outputs_dir three_links |}.

(** What [extract_kpis_from_page] tries for one pattern. *)
Definition parse_with (w : World.t) (text pat : string) : option float :=
  World.re_search w pat (Py.lower text) ≫= World.float_of_str w.

(** [w] with [requests.get] answering [body] with status 200. *)
Definition with_page (body : string) (w : World.t) : World.t :=
  {| World.ddg_invoke := World.ddg_invoke w;
     World.ddgs_text := World.ddgs_text w;
     World.requests_get := fun _ _ => World.HttpOk 200 body;
     World.extract_title := World.extract_title w;
     World.re_search := World.re_search w;
     World.float_of_str := World.float_of_str w;
     World.yf_ticker := World.yf_ticker w;
     World.embeddings_error := World.embeddings_error w;
     World.faiss_error := World.faiss_error w;
     World.similarity_search := World.similarity_search w;
     World.summarize_docs := World.summarize_docs w;
     World.llm_claims := World.llm_claims w;
     World.current_price := World.current_price w;
     World.outputs_dir := World.outputs_dir w |}.

(** One search result whose page gives the P/E ratio 25, and market data
    that says 30. *)
Definition page_world : World.t :=
  with_page "Trailing P/E ratio: 25"
    (with_ddg (fun _ => World.DdgList [raw "A" "https://a.example"]) pe_world).

(** Market data with a revenue of zero. *)
Definition zero_revenue : World.t :=
  with_ticker
    {| World.info := Some {[ "trailingPE" := of_Z 30 ]};
       World.last_close := None;
       World.financials := Some (fun row =>
         if bool_decide (row = "Total Revenue") then Some zero
         else Some (of_Z 10)) |}
    offline.

(** One result without a link, whose snippet is [snippet], and a
    language model that answers [claims]. *)
Definition answering (snippet : string) (claims : list string) : World.t :=
  {| World.ddg_invoke :=
       Some (fun _ => World.DdgList [{[ "title" := "Results"; "body" := snippet ]}]);
     World.ddgs_text := None;
     World.requests_get := fun _ _ => World.HttpRaise "unreachable";
     World.extract_title := fun _ => "";
     World.re_search := fun _ _ => None;
     World.float_of_str := fun _ => None;
     World.yf_ticker := fun _ => None;
     World.embeddings_error := None;
     World.faiss_error := fun _ => None;
     World.similarity_search := fun _ _ _ => [];
     World.summarize_docs := fun _ _ => "Key points from retrieved sources";
     World.llm_claims := fun _ _ _ => Some claims;
     World.current_price := fun _ => None;
     World.outputs_dir := "outputs/" |}.

Definition answering_env : Graph.env :=
  {| Graph.world := answering "Revenue GREW in 2024" [claim_2024];
     Graph.clock := fun _ => (of_Z 1700000000, of_Z 1700000001);
     Graph.index_ms := 1700000000500;
     Graph.report_s := 1700000002;
     Graph.min_overlap := 1 |}.

End Cases.

(** ** Tactics *)

(** Case analysis on every test of the goal. *)
Ltac case_if :=
  repeat match goal with
         | |- context [if ?b then _ else _] => destruct b
         end.

(** * Part III: properties *)

(** ** Strings *)

Section StringFacts.

Lemma app_cons (a : ascii) (p q : string) : String a p ++ q = String a (p ++ q).
Proof. reflexivity. Qed.

Lemma prefix_nil (s : string) : String.prefix "" s = true.
Proof. by destruct s. Qed.

Lemma prefix_spec (p s : string) :
  String.prefix p s = true ↔ ∃ q, s = p ++ q.
Proof.
  revert s. induction p as [|a p IH]; intros s.
  - rewrite prefix_nil. split; [intros _; by exists s | done].
  - destruct s as [|b s]; simpl.
    + split; [discriminate | intros [q Hq]; discriminate].
    + destruct (Ascii.ascii_dec a b) as [->|Hne].
      * rewrite IH. split; intros [q Hq]; exists q; rewrite app_cons in *; congruence.
      * split; [discriminate | intros [q Hq]; rewrite app_cons in Hq; congruence].
Qed.

(** [t in text] holds exactly when [text] is [p ++ t ++ q] for some [p]
    and [q]. *)
Lemma contains_spec (t text : string) :
  Py.contains t text = true ↔ ∃ p q, text = p ++ t ++ q.
Proof.
  induction text as [|b text IH].
  - change (Py.contains t "") with (String.prefix t "" || false).
    rewrite orb_false_r, prefix_spec. split.
    + intros [q Hq]. exists "", q. exact Hq.
    + intros [p [q Hq]]. destruct p; [eauto | discriminate].
  - change (Py.contains t (String b text))
      with (String.prefix t (String b text) || Py.contains t text).
    rewrite orb_true_iff, prefix_spec, IH. split.
    + intros [[q Hq] | [p [q Hq]]].
      * exists "", q. exact Hq.
      * exists (String b p), q. rewrite app_cons. congruence.
    + intros [p [q Hq]]. destruct p as [|a p].
      * left. eauto.
      * right. exists p, q. rewrite app_cons in Hq. congruence.
Qed.

End StringFacts.

(** ** Tokens *)

Section TokenFacts.

Import Tools Spec Sample.

(** A lowered character of the token class is no capital. *)
Lemma lower_char_class (a : ascii) :
  is_tok_char (Py.lower_char a) = true → is_low_tok (Py.lower_char a) = true.
Proof.
  destruct a as [b0 b1 b2 b3 b4 b5 b6 b7].
  destruct b0, b1, b2, b3, b4, b5, b6, b7; vm_compute; intros H; congruence.
Qed.

Lemma lower_token_snoc (cur : string) (a : ascii) :
  lower_token cur = true → is_low_tok a = true →
  lower_token (cur ++ String a "") = true.
Proof.
  intros Hc Ha. induction cur as [|b cur IH].
  - change (is_low_tok a && true = true). by rewrite Ha.
  - rewrite app_cons.
    change (is_low_tok b && lower_token cur = true) in Hc.
    change (is_low_tok b && lower_token (cur ++ String a "") = true).
    apply andb_true_iff in Hc as [Hb Hc]. rewrite Hb. simpl. auto.
Qed.

Lemma findall_from_lower (s cur : string) :
  lower_token cur = true →
  Forall (fun t => lower_token t = true) (findall_from cur (Py.lower s)).
Proof.
  revert cur. induction s as [|a s IH]; intros cur Hc; simpl.
  - unfold emit. destruct (Py.truthy cur); auto.
  - destruct (is_tok_char (Py.lower_char a)) eqn:Ha.
    + apply IH, lower_token_snoc; [done | by apply lower_char_class].
    + apply Forall_app. split; [|by apply IH].
      unfold emit. destruct (Py.truthy cur); auto.
Qed.

(** The tokens of a claim are longer than three characters and made of
    lower case letters, digits and hyphens. *)
Lemma tokens_shape (c : string) :
  Forall (fun t => 3 < String.length t ∧ lower_token t = true) (tokens c).
Proof.
  unfold tokens, findall. apply Forall_forall. intros t Ht.
  apply list_elem_of_filter in Ht as [Hlen Hin]. split; [done|].
  pose proof (findall_from_lower c "" eq_refl) as HF.
  rewrite Forall_forall in HF. by apply HF.
Qed.

End TokenFacts.

(** ** The verification loop *)

Section Loop.

Import Tools Spec Sample.

Variable toks : list string.
Variable min_overlap : Z.

Let ov := overlap_of toks.
Let run := foldl (step toks min_overlap).

Lemma step_verdict a s :
  verdict (step toks min_overlap a s)
  = verdict a || bool_decide (min_overlap ≤ Z.of_nat (ov s))%Z.
Proof.
  unfold step, ov. generalize (overlap_of toks s) as o. intros o.
  repeat case_bool_decide; simpl; destruct (verdict a); reflexivity.
Qed.

Lemma step_overlap_max a s :
  overlap_max (step toks min_overlap a s) = overlap_max a `max` ov s.
Proof.
  unfold step, ov. generalize (overlap_of toks s) as o. intros o.
  repeat case_bool_decide; simpl; lia.
Qed.

Lemma step_url a s :
  url (step toks min_overlap a s)
  = if bool_decide (overlap_max a < ov s) then source_url s else url a.
Proof.
  unfold step, ov. generalize (overlap_of toks s) as o. intros o.
  repeat case_bool_decide; reflexivity.
Qed.

Lemma run_verdict sources a :
  verdict (run a sources)
  = verdict a || existsb (fun s => bool_decide (min_overlap ≤ Z.of_nat (ov s))%Z) sources.
Proof.
  unfold run. revert a. induction sources as [|s l IH]; intros a; simpl.
  - by rewrite orb_false_r.
  - by rewrite IH, step_verdict, orb_assoc.
Qed.

Lemma run_overlap_max sources a :
  overlap_max (run a sources) = overlap_max a `max` max_list (ov <$> sources).
Proof.
  unfold run. revert a. induction sources as [|s l IH]; intros a; simpl.
  - lia.
  - rewrite IH, step_overlap_max. symmetry. apply Nat.max_assoc.
Qed.

(** The URL changes only when a source strictly beats everything before
    it, so the loop ends on the first source that reaches the largest
    overlap, if that beats the starting value. *)
Lemma run_url sources a :
  url (run a sources)
  = if bool_decide (max_list (ov <$> sources) ≤ overlap_max a)%nat then url a
    else find (fun s => bool_decide (ov s = max_list (ov <$> sources))) sources
         ≫= source_url.
Proof.
  unfold run. revert a. induction sources as [|s l IH]; intros a; simpl.
  - reflexivity.
  - rewrite IH, step_overlap_max, step_url.
    change (list_fmap Doc.t nat ov l) with (ov <$> l).
    generalize (max_list (ov <$> l)) as M, (ov s) as o. intros M o.
    repeat case_bool_decide; simpl; try reflexivity; try lia.
    replace (o `max` M) with M by lia. reflexivity.
Qed.

End Loop.

Section VerifyFacts.

Import Tools Spec Sample.

Lemma scan_verdict toks m sources :
  verdict (scan toks m sources) = reaches toks m sources.
Proof. unfold scan. by rewrite run_verdict. Qed.

Lemma scan_overlap_max toks m sources :
  overlap_max (scan toks m sources) = max_overlap toks sources.
Proof. unfold scan. by rewrite run_overlap_max. Qed.

Lemma scan_url toks m sources :
  url (scan toks m sources) = best_url toks sources.
Proof.
  unfold scan, best_url, first_best, max_overlap. rewrite run_url. simpl.
  repeat case_bool_decide; try reflexivity; lia.
Qed.

Lemma reaches_spec toks m sources :
  reaches toks m sources = true
  ↔ ∃ s, s ∈ sources ∧ (m ≤ Z.of_nat (overlap_of toks s))%Z.
Proof.
  unfold reaches. rewrite existsb_exists. split.
  - intros [s [Hin Hs]]. exists s. split; [by apply list_elem_of_In|].
    by apply bool_decide_eq_true in Hs.
  - intros [s [Hin Hs]]. exists s. split; [by apply list_elem_of_In|].
    by apply bool_decide_eq_true.
Qed.

(** With a source at hand, reaching the threshold and having the largest
    overlap reach it are one thing. *)
Lemma reaches_max toks m sources :
  sources ≠ [] →
  reaches toks m sources = bool_decide (m ≤ Z.of_nat (max_overlap toks sources))%Z.
Proof.
  unfold reaches, max_overlap. induction sources as [|s l IH]; [done|].
  intros _. simpl. destruct l as [|s' l'].
  - simpl. rewrite orb_false_r. repeat case_bool_decide; try reflexivity; lia.
  - rewrite IH by done.
    change (list_fmap Doc.t nat (overlap_of toks) (s' :: l'))
      with (overlap_of toks <$> s' :: l').
    generalize (max_list (overlap_of toks <$> s' :: l')) as M,
               (overlap_of toks s) as o. intros M o.
    repeat case_bool_decide; simpl; try reflexivity; lia.
Qed.

Lemma entry_claim c a : entry c a !! "claim" = Some (VStr c).
Proof. reflexivity. Qed.

Lemma entry_verdict c a : entry c a !! "verdict" = Some (VBool (verdict a)).
Proof. reflexivity. Qed.

Lemma entry_evidence_url c a :
  entry c a !! "evidence_url" = Some (of_opt_str (url a)).
Proof. reflexivity. Qed.

Lemma entry_note c a :
  entry c a !! "note" = Some (VStr ("overlap=" ++ Py.str_of_nat (overlap_max a))).
Proof. reflexivity. Qed.

Lemma entry_overlap_score c a : entry c a !! "overlap_score" = None.
Proof. reflexivity. Qed.

End VerifyFacts.

(** ** Claim verification *)

Section VerifyClaims.

Import Tools Spec Sample.

Example tokens_claim_2024 :
  tokens claim_2024 = ["revenue"; "grew"; "significantly"; "2024"].
Proof. reflexivity. Qed.

Example overlap_claim_2024 :
  overlap_of (tokens claim_2024) doc_revenue = 3 ∧
  overlap_of (tokens claim_2024) doc_weather = 0.
Proof. split; reflexivity. Qed.

(** C1, as the specification states it, fails: with no source the
    largest overlap is 0, which meets the threshold 0, and the verdict
    is false all the same. *)
Lemma verdict_by_maximum_fails : ¬ verdict_by_maximum [claim_2024] [] 0.
Proof.
  unfold verdict_by_maximum. intros H.
  apply Forall2_cons_1 in H as [[_ H] _]. vm_compute in H. discriminate H.
Qed.

(** C1, amended: [verify_claims_tool] returns one result per claim, in
    order, each naming its claim; the tokens counted are longer than
    three characters and made of lower case letters, digits and hyphens;
    the verdict is true exactly when some source's overlap reaches
    [min_overlap], which, as soon as there is a source, is the test of
    the largest overlap against [min_overlap]. *)
Theorem verify_claims_verdict (claims : list string) (sources : list Doc.t)
    (min_overlap : Z) :
  Forall2
    (fun c v =>
       v !! "claim" = Some (VStr c) ∧
       Forall (fun t => 3 < String.length t ∧ lower_token t = true) (tokens c) ∧
       ∃ b, v !! "verdict" = Some (VBool b) ∧
            (b = true ↔
             ∃ s, s ∈ sources ∧ (min_overlap ≤ Z.of_nat (overlap_of (tokens c) s))%Z) ∧
            (sources ≠ [] →
             b = bool_decide (min_overlap ≤ Z.of_nat (max_overlap (tokens c) sources))%Z))
    claims (verify_claims_tool claims sources min_overlap).
Proof.
  unfold verify_claims_tool. apply Forall2_fmap_r, Forall_Forall2_diag.
  apply Forall_forall. intros c _. unfold verify_one.
  split; [apply entry_claim|]. split; [apply tokens_shape|].
  exists (reaches (tokens c) min_overlap sources).
  rewrite entry_verdict, scan_verdict.
  split; [done|]. split; [apply reaches_spec | apply reaches_max].
Qed.

(** The amended rule at work: one source, threshold 1, and the test
    of the largest overlap. *)
Lemma verify_claims_verdict_witness :
  Forall2
    (fun c v =>
       v !! "claim" = Some (VStr c) ∧
       v !! "verdict"
       = Some (VBool (bool_decide (1 ≤ Z.of_nat (max_overlap (tokens c) [doc_revenue]))%Z)))
    [claim_2024] (verify_claims_tool [claim_2024] [doc_revenue] 1).
Proof.
  eapply Forall2_impl; [exact (verify_claims_verdict [claim_2024] [doc_revenue] 1)|].
  intros c v [Hc [_ [b [Hv [_ Hmax]]]]]. split; [exact Hc|].
  rewrite Hv. do 2 f_equal. apply Hmax. discriminate.
Defined.

(** C4: the verdicts are monotone in the threshold. For a fixed list of
    claims and of sources and [m1 <= m2], a claim whose verdict is true
    under [m2] has a true verdict under [m1]. *)
Theorem verify_claims_monotone (claims : list string) (sources : list Doc.t)
    (m1 m2 : Z) :
  (m1 ≤ m2)%Z →
  Forall2
    (fun v2 v1 =>
       v2 !! "verdict" = Some (VBool true) → v1 !! "verdict" = Some (VBool true))
    (verify_claims_tool claims sources m2) (verify_claims_tool claims sources m1).
Proof.
  intros Hm. unfold verify_claims_tool.
  apply Forall2_fmap, Forall_Forall2_diag, Forall_forall. intros c _.
  unfold verify_one. rewrite !entry_verdict, !scan_verdict.
  intros H. injection H as H. apply reaches_spec in H as [s [Hin Hs]].
  do 2 f_equal. apply reaches_spec. exists s. split; [done | lia].
Qed.

Lemma verify_claims_monotone_witness :
  Forall2
    (fun v2 v1 =>
       v2 !! "verdict" = Some (VBool true) → v1 !! "verdict" = Some (VBool true))
    (verify_claims_tool [claim_2024] [doc_weather; doc_revenue] 3)
    (verify_claims_tool [claim_2024] [doc_weather; doc_revenue] 1).
Proof.
  apply (verify_claims_monotone [claim_2024] [doc_weather; doc_revenue] 1 3).
  discriminate.
Defined.

(** Both thresholds of the sample are met: the hypothesis of the
    monotonicity statement is not vacuous there. *)
Example verify_claims_at_3 :
  (fun v => v !! "verdict") <$> verify_claims_tool [claim_2024] [doc_weather; doc_revenue] 3
  = [Some (VBool true)].
Proof. reflexivity. Qed.

End VerifyClaims.

Section VerifyEvidence.

Import Tools Spec Sample.

(** When an overlap is positive, [first_best] is a source of the list
    whose overlap is the largest one, and no source before it reaches
    that overlap. *)
Lemma first_best_spec toks sources :
  sources ≠ [] →
  ∃ pre s post,
    sources = (pre ++ s :: post)%list ∧
    first_best toks sources = Some s ∧
    overlap_of toks s = max_overlap toks sources ∧
    Forall (fun s' => overlap_of toks s' < max_overlap toks sources) pre.
Proof.
  intros Hne. unfold first_best.
  assert (Hle : Forall (fun s => overlap_of toks s ≤ max_overlap toks sources)%nat sources).
  { apply Forall_forall. intros s Hs. unfold max_overlap.
    apply max_list_elem_of_le, list_elem_of_fmap. eauto. }
  assert (Hex : ∃ s, s ∈ sources ∧ overlap_of toks s = max_overlap toks sources).
  { unfold max_overlap. destruct sources as [|s0 l]; [done|].
    pose proof (max_list_elem_of (overlap_of toks <$> s0 :: l)) as Hin.
    apply list_elem_of_fmap in Hin as [s [Hs Hin]]; [eauto | done]. }
  clear Hne. revert Hle Hex. generalize (max_overlap toks sources) as M. intros M.
  induction sources as [|s l IH]; intros Hle [s1 [Hin Hs1]].
  - by apply elem_of_nil in Hin.
  - simpl. apply Forall_cons_1 in Hle as [Hs Hle]. case_bool_decide as Heq.
    + exists [], s, l. repeat split; auto.
    + assert (Hin' : s1 ∈ l).
      { apply elem_of_cons in Hin as [->|Hin]; [done | exact Hin]. }
      destruct (IH Hle (ex_intro _ s1 (conj Hin' Hs1)))
        as [pre [s2 [post [-> [Hf [Hs2 Hpre]]]]]].
      exists (s :: pre), s2, post. repeat split; auto.
      apply Forall_cons. split; [lia | done].
Qed.

(** C3, as the specification states it, fails on both counts: the
    result has no [overlap_score], and with a source that shares no token
    with the claim the evidence URL is [None], not that source's URL. *)
Lemma overlap_score_and_best_url_fail :
  ¬ carries_overlap_score [claim_2024] [doc_weather] 1 ∧
  ¬ evidence_is_best_source [claim_2024] [doc_weather] 1.
Proof.
  split; intros H.
  - apply Forall2_cons_1 in H as [H _]. vm_compute in H. discriminate H.
  - apply Forall2_cons_1 in H as [[s [Hin [_ H]]] _].
    apply list_elem_of_singleton in Hin as ->. vm_compute in H. discriminate H.
Qed.

(** C3, amended: each result carries the largest overlap over all
    sources (0 without a source) in the text ["overlap=N"] under the key
    [note], and has no key [overlap_score]; its [evidence_url] is, for
    every threshold, the URL of the first source that reaches the
    largest overlap when that overlap is positive, and [None] when it
    is 0. *)
Theorem verify_claims_note_and_evidence (claims : list string)
    (sources : list Doc.t) (min_overlap : Z) :
  Forall2
    (fun c v =>
       v !! "note"
       = Some (VStr ("overlap=" ++ Py.str_of_nat (max_overlap (tokens c) sources))) ∧
       v !! "overlap_score" = None ∧
       v !! "evidence_url" = Some (of_opt_str (best_url (tokens c) sources)))
    claims (verify_claims_tool claims sources min_overlap).
Proof.
  unfold verify_claims_tool. apply Forall2_fmap_r, Forall_Forall2_diag.
  apply Forall_forall. intros c _. unfold verify_one, compose.
  rewrite entry_note, entry_evidence_url, scan_overlap_max, scan_url.
  repeat split.
Qed.

Example verify_claims_evidence_below_threshold :
  (fun v => (v !! "verdict", v !! "evidence_url", v !! "note"))
  <$> verify_claims_tool [claim_2024] [doc_weather; doc_revenue] 4
  = [(Some (VBool false), Some (VStr "https://example.com/a"),
      Some (VStr "overlap=3"))].
Proof. reflexivity. Qed.

(** C10: every claim has its result, in order and under its text;
    without a source the result's verdict is false and its
    [evidence_url] is [None], for every threshold, those at or below 0
    included; and, claim by claim, the [evidence_url] is [None] whenever
    no source shares a token with that claim, whatever the other claims
    find. *)
Theorem verify_claims_no_evidence (claims : list string) (sources : list Doc.t)
    (min_overlap : Z) :
  Forall2
    (fun c v =>
       v !! "claim" = Some (VStr c) ∧
       (sources = [] →
        v !! "verdict" = Some (VBool false) ∧ v !! "evidence_url" = Some VNone) ∧
       ((∀ s, s ∈ sources → overlap_of (tokens c) s = 0) →
        v !! "evidence_url" = Some VNone))
    claims (verify_claims_tool claims sources min_overlap).
Proof.
  unfold verify_claims_tool. apply Forall2_fmap_r, Forall_Forall2_diag.
  apply Forall_forall. intros c _. unfold verify_one.
  split; [apply entry_claim|].
  rewrite entry_evidence_url, entry_verdict, scan_url, scan_verdict. split.
  - intros ->. split; reflexivity.
  - intros H0. unfold best_url. rewrite bool_decide_eq_true_2; [done|].
    unfold max_overlap. destruct sources as [|s0 l]; [done|].
    pose proof (max_list_elem_of (overlap_of (tokens c) <$> s0 :: l)) as Hin.
    apply list_elem_of_fmap in Hin as [s [-> Hin]]; [by apply H0 | done].
Qed.

(** Without a source and under the threshold 0, and on a list of claims
    of which one only finds its tokens in the source. *)
Lemma verify_claims_no_evidence_witness :
  Forall2
    (fun c v =>
       v !! "claim" = Some (VStr c) ∧
       v !! "verdict" = Some (VBool false) ∧ v !! "evidence_url" = Some VNone)
    [claim_2024; claim_snow] (verify_claims_tool [claim_2024; claim_snow] [] 0) ∧
  Forall2
    (fun c v =>
       v !! "claim" = Some (VStr c) ∧
       (c = claim_snow → v !! "evidence_url" = Some VNone))
    [claim_2024; claim_snow] (verify_claims_tool [claim_2024; claim_snow] [doc_revenue] 0).
Proof.
  split.
  - eapply Forall2_impl; [exact (verify_claims_no_evidence [claim_2024; claim_snow] [] 0)|].
    intros c v [Hc [Hnone _]]. split; [exact Hc | by apply Hnone].
  - eapply Forall2_impl;
      [exact (verify_claims_no_evidence [claim_2024; claim_snow] [doc_revenue] 0)|].
    intros c v [Hc [_ Hzero]]. split; [exact Hc|]. intros ->. apply Hzero.
    intros s Hs. apply list_elem_of_singleton in Hs as ->. reflexivity.
Defined.

(** The same with a source that shares no token with the claim. *)
Example verify_claims_no_evidence_weather :
  (fun v => (v !! "verdict", v !! "evidence_url", v !! "note"))
  <$> verify_claims_tool [claim_2024] [doc_weather] 0
  = [(Some (VBool true), Some VNone, Some (VStr "overlap=0"))].
Proof. reflexivity. Qed.

(** On a mixed list the claim that finds its tokens names its source and
    the other one names none. *)
Example verify_claims_mixed :
  (fun v => (v !! "verdict", v !! "evidence_url", v !! "note"))
  <$> verify_claims_tool [claim_2024; claim_snow] [doc_revenue] 1
  = [(Some (VBool true), Some (VStr "https://example.com/a"), Some (VStr "overlap=3"));
     (Some (VBool false), Some VNone, Some (VStr "overlap=0"))].
Proof. reflexivity. Qed.

End VerifyEvidence.

(** ** Web search *)

Section WebSearch.

Import Tools Spec Sample.

Example web_search_three_results :
  web_search three_results "nvda" 8
  = [ {| Hit.title := "A"; Hit.snippet := "..."; Hit.link := "https://a.example" |};
      {| Hit.title := "B"; Hit.snippet := "..."; Hit.link := "https://b.example" |} ].
Proof. vm_compute. reflexivity. Qed.

Lemma dedupe_sublist seen out : dedupe seen out `sublist_of` out.
Proof.
  revert seen. induction out as [|x r IH]; intros seen; simpl; [constructor|].
  destruct (Py.truthy (dedupe_key x) && negb (bool_decide (dedupe_key x ∈ seen))).
  - apply sublist_skip, IH.
  - apply sublist_cons, IH.
Qed.

(** No kept entry has a key of [seen]. *)
Lemma dedupe_fresh seen out x :
  x ∈ dedupe seen out → (dedupe_key x ∉ seen) ∧ Py.truthy (dedupe_key x) = true.
Proof.
  revert seen. induction out as [|y r IH]; intros seen; simpl.
  - intros H. by apply elem_of_nil in H.
  - destruct (Py.truthy (dedupe_key y)) eqn:Ht; simpl; [|apply IH].
    case_bool_decide as Hy; simpl; [apply IH|].
    intros [->|Hin]%elem_of_cons; [done|].
    destruct (IH _ Hin) as [Hn Hx]. split; [|done].
    intros Hs. apply Hn, elem_of_union. by right.
Qed.

Lemma dedupe_NoDup seen out : NoDup (dedupe_key <$> dedupe seen out).
Proof.
  revert seen. induction out as [|y r IH]; intros seen; simpl; [constructor|].
  destruct (Py.truthy (dedupe_key y)); simpl; [|apply IH].
  case_bool_decide as Hy; simpl; [apply IH|].
  apply NoDup_cons. split; [|apply IH].
  intros [x [Hk Hin]]%list_elem_of_fmap. apply dedupe_fresh in Hin as [Hn _].
  set_solver.
Qed.

(** A kept entry is the first of the raw list with its key, as long as
    the key is not in [seen]. *)
Lemma dedupe_first_seen seen out x :
  x ∈ dedupe seen out → first_seen out x.
Proof.
  revert seen. induction out as [|y r IH]; intros seen; simpl.
  - intros H. by apply elem_of_nil in H.
  - assert (Hskip : ∀ seen', dedupe_key y ∈ seen' → x ∈ dedupe seen' r →
                             first_seen (y :: r) x).
    { intros seen' Hy Hin. pose proof (dedupe_fresh _ _ _ Hin) as [Hn _].
      destruct (IH _ Hin) as [pre [post [-> Hpre]]].
      exists (y :: pre), post. split; [done|].
      apply Forall_cons. split; [congruence | done]. }
    destruct (Py.truthy (dedupe_key y)) eqn:Ht; simpl.
    + case_bool_decide as Hy; simpl; [by apply Hskip|].
      intros [->|Hin]%elem_of_cons.
      * exists [], r. split; [done | constructor].
      * apply (Hskip ({[dedupe_key y]} ∪ seen)); [set_solver | done].
    + intros Hin. pose proof (dedupe_fresh _ _ _ Hin) as [_ Hx].
      destruct (IH _ Hin) as [pre [post [-> Hpre]]].
      exists (y :: pre), post. split; [done|].
      apply Forall_cons. split; [congruence | done].
Qed.

(** Every raw hit with a key is represented: its key is the key of a
    kept entry, or was met before. *)
Lemma dedupe_complete seen out y :
  y ∈ out → Py.truthy (dedupe_key y) = true →
  dedupe_key y ∈ seen ∨ dedupe_key y ∈ dedupe_key <$> dedupe seen out.
Proof.
  revert seen. induction out as [|x r IH]; intros seen Hin Hy; simpl.
  - by apply elem_of_nil in Hin.
  - apply elem_of_cons in Hin as [->|Hin].
    + rewrite Hy. simpl. case_bool_decide; simpl; [by left | right].
      apply elem_of_cons. by left.
    + destruct (Py.truthy (dedupe_key x)) eqn:Ht; simpl; [|by apply IH].
      case_bool_decide as Hx; simpl; [by apply IH|].
      destruct (IH ({[dedupe_key x]} ∪ seen) Hin Hy) as [Hs|Hk].
      * apply elem_of_union in Hs as [Hs|Hs]; [|by left].
        right. apply elem_of_singleton in Hs. rewrite Hs.
        apply elem_of_cons. by left.
      * right. apply elem_of_cons. by right.
Qed.

Lemma prefix_is_sublist {A} (l1 l2 : list A) :
  l1 `prefix_of` l2 → l1 `sublist_of` l2.
Proof. intros [k ->]. by apply sublist_inserts_r. Qed.

(** [l[:n]] is a prefix of [l], whatever the sign of [n]. *)
Lemma slice_to_prefix {A} (n : Z) (l : list A) : Py.slice_to n l `prefix_of` l.
Proof. unfold Py.slice_to. destruct (0 <=? n)%Z; apply prefix_take. Qed.

Lemma slice_to_length {A} (n : Z) (l : list A) :
  (0 ≤ n)%Z → (Z.of_nat (length (Py.slice_to n l)) ≤ n)%Z.
Proof.
  intros Hn. unfold Py.slice_to. rewrite (proj2 (Z.leb_le 0 n) Hn), length_take. lia.
Qed.

(** C7, as the specification states it, fails for a negative
    [max_results]: [final[:-1]] drops the last entry, and the two that
    are left are more than -1. *)
Lemma at_most_max_results_fails : ¬ at_most_max_results three_results "nvda" (-1).
Proof.
  unfold at_most_max_results.
  replace (web_search three_results "nvda" (-1))
    with [ {| Hit.title := "A"; Hit.snippet := "..."; Hit.link := "https://a.example" |} ]
    by (vm_compute; reflexivity).
  simpl. lia.
Qed.

Lemma web_search_prefix (w : World.t) (query : string) (max_results : Z) :
  web_search w query max_results `prefix_of` dedupe ∅ (raw_hits w query max_results).
Proof. apply slice_to_prefix. Qed.

Lemma web_search_keys_NoDup (w : World.t) (query : string) (max_results : Z) :
  NoDup (dedupe_key <$> web_search w query max_results).
Proof.
  eapply sublist_NoDup; [apply (dedupe_NoDup ∅)|].
  apply fmap_sublist, prefix_is_sublist, web_search_prefix.
Qed.

(** C7, amended: for every [max_results] that is not negative the
    output of [web_search] holds at most [max_results] entries; for
    every [max_results] its entries have pairwise distinct
    deduplication keys (the link, the title when the link is empty),
    stand in the order of the raw hits, and each is the first raw hit
    with its key. *)
Theorem web_search_deduplicated (w : World.t) (query : string) (max_results : Z) :
  let out := web_search w query max_results in
  let raw_list := raw_hits w query max_results in
  ((0 ≤ max_results)%Z → (Z.of_nat (length out) ≤ max_results)%Z) ∧
  NoDup (dedupe_key <$> out) ∧
  out `sublist_of` raw_list ∧
  Forall (first_seen raw_list) out.
Proof.
  intros out raw_list. unfold out, raw_list.
  pose proof (web_search_prefix w query max_results) as Hpre.
  split; [apply slice_to_length|]. split; [apply web_search_keys_NoDup|]. split.
  - etrans; [apply prefix_is_sublist, Hpre | apply dedupe_sublist].
  - apply Forall_forall. intros x Hx. apply (dedupe_first_seen ∅).
    destruct Hpre as [k ->]. apply elem_of_app. by left.
Qed.

(** The three sample results cut to one. *)
Lemma web_search_deduplicated_witness :
  (Z.of_nat (length (web_search three_results "nvda" 1)) ≤ 1)%Z.
Proof.
  apply (proj1 (web_search_deduplicated three_results "nvda" 1)). discriminate.
Defined.

(** Two raw hits under one link: the output holds at most one entry with
    that link, and it is the first raw hit that has it. *)
Lemma web_search_same_link (w : World.t) (query : string) (max_results : Z)
    (x y : Hit.t) :
  x ∈ web_search w query max_results → y ∈ web_search w query max_results →
  Py.truthy (Hit.link x) = true → Hit.link x = Hit.link y → x = y.
Proof.
  intros Hx Hy Ht Hl.
  pose proof (web_search_keys_NoDup w query max_results) as Hnd.
  apply list_elem_of_lookup in Hx as [i Hi]. apply list_elem_of_lookup in Hy as [j Hj].
  assert (Hk : dedupe_key x = dedupe_key y).
  { unfold dedupe_key, Py.str_or. rewrite <- Hl, Ht. done. }
  assert (i = j) as ->; [|congruence].
  eapply NoDup_lookup; [exact Hnd | |]; rewrite list_lookup_fmap.
  - by rewrite Hi.
  - rewrite Hj. simpl. by rewrite Hk.
Qed.

End WebSearch.

(** ** The embedding index *)

Section BuildIndex.

Import Tools Spec Sample.

Lemma lstrip_all_space s : all_space s = true → Py.lstrip s = "".
Proof.
  induction s as [|a r IH]; simpl; [done|].
  intros [Ha Hr]%andb_true_iff. rewrite Ha. auto.
Qed.

Lemma lstrip_not_all_space s :
  all_space s = false → ∃ a r, Py.lstrip s = String a r ∧ Py.is_space a = false.
Proof.
  induction s as [|a r IH]; simpl; [done|].
  destruct (Py.is_space a) eqn:Ha; simpl; eauto.
Qed.

Lemma rstrip_keeps_head a r : Py.is_space a = false → Py.rstrip (String a r) ≠ "".
Proof. intros Ha. simpl. rewrite Ha. done. Qed.

(** [not s.strip()] says that [s] is all white space. *)
Lemma strip_blank s : negb (Py.truthy (Py.strip s)) = all_space s.
Proof.
  unfold Py.strip. destruct (all_space s) eqn:Hs.
  - by rewrite lstrip_all_space.
  - destruct (lstrip_not_all_space s Hs) as [a [r [-> Ha]]].
    pose proof (rstrip_keeps_head a r Ha) as Hne.
    destruct (Py.rstrip (String a r)); done.
Qed.

Lemma get_or_empty o : Py.get_or o "" = default "" o.
Proof. destruct o as [[|a s]|]; reflexivity. Qed.

Lemma index_step_blank lang_docs d :
  index_step lang_docs d
  = if blank d then lang_docs
    else (lang_docs ++
      [ {| LangDoc.page_content := index_text d;
           LangDoc.metadata :=
             {| Metadata.url := Some (default "" (Doc.url d));
                Metadata.title := Some (default "" (Doc.title d)) |} |} ])%list.
Proof.
  unfold index_step, blank. rewrite strip_blank. unfold index_text.
  by rewrite get_or_empty.
Qed.

(** The loop appends one entry per document that is not blank. *)
Lemma index_loop_length docs lang_docs :
  length (foldl index_step lang_docs docs)
  = length lang_docs + length (filter (fun d => blank d = false) docs).
Proof.
  revert lang_docs. induction docs as [|d l IH]; intros lang_docs; simpl; [lia|].
  rewrite IH, index_step_blank. destruct (blank d) eqn:Hb.
  - rewrite filter_cons_False by congruence. lia.
  - rewrite filter_cons_True by done. rewrite length_app. simpl. lia.
Qed.

Lemma no_filtered_blank docs :
  length (filter (fun d => blank d = false) docs) = 0
  ↔ Forall (fun d => blank d = true) docs.
Proof.
  induction docs as [|d l IH]; simpl; [by split; auto|].
  rewrite Forall_cons. destruct (blank d) eqn:Hb.
  - rewrite filter_cons_False by congruence. rewrite IH. split; [by split | by intros [_ ?]].
  - rewrite filter_cons_True by done. simpl. split; [lia | intros [? _]; done].
Qed.



Example build_index_sample :
  (build_index offline 1700000000000 ∅ [doc_spaces; doc_revenue; doc_weather]).1
  = BuildOk "idx_1700000000000" 2 ∧
  (build_index offline 1700000000000 ∅ [doc_spaces]).1 = BuildFailed "no valid text" ∧
  (build_index offline 1700000000000 ∅ []).1 = BuildFailed "no docs".
Proof. repeat split; vm_compute; reflexivity. Qed.

(** The truncation counts: text that starts after 3000 spaces is not
    indexed. *)
Example build_index_truncates :
  blank doc_late_text = true ∧
  all_space (default "" (Doc.text doc_late_text)) = false ∧
  (build_index offline 1700000000000 ∅ [doc_late_text]).1 = BuildFailed "no valid text" ∧
  (build_index offline 1700000000000 ∅ [doc_late_text; doc_revenue]).1
  = BuildOk "idx_1700000000000" 1.
Proof. repeat split; vm_compute; reflexivity. Qed.

(** Without the provider the call raises: for documents that are not
    empty, when the embeddings cannot be set up, whatever the texts; and
    when the indexing raises, as soon as one text is not blank. The
    registry is left as it was. *)
Lemma build_index_raises (w : World.t) (now_ms : Z)
    (reg : gmap string (list LangDoc.t)) (docs : list Doc.t) (e : string) :
  docs ≠ [] →
  (World.embeddings_error w = Some e →
   build_index w now_ms reg docs = (BuildRaise e, reg)) ∧
  (World.embeddings_error w = None →
   ¬ Forall (fun d => blank d = true) docs →
   World.faiss_error w (foldl index_step [] docs) = Some e →
   build_index w now_ms reg docs = (BuildRaise e, reg)).
Proof.
  intros Hdocs. unfold build_index.
  pose proof (index_loop_length docs []) as Hlen. simpl in Hlen.
  pose proof (no_filtered_blank docs) as Hall.
  destruct docs as [|d0 l]; [done|]. split.
  - by intros ->.
  - intros -> Hnb Hfaiss.
    destruct (foldl index_step [] (d0 :: l)) as [|x xs] eqn:Hfold.
    + destruct Hnb. apply Hall. simpl in Hlen. lia.
    + by rewrite Hfaiss.
Qed.

Example build_index_no_api_key :
  build_index no_api_key 1700000000000 ∅ [doc_spaces]
  = (BuildRaise "api_key must be set", ∅) ∧
  build_index no_api_key 1700000000000 ∅ [doc_revenue]
  = (BuildRaise "api_key must be set", ∅) ∧
  build_index no_api_key 1700000000000 ∅ [] = (BuildFailed "no docs", ∅).
Proof. repeat split. Qed.

End BuildIndex.

(** ** The research stage *)

Section Research.

Import Tools Spec Sample.

(** The mapping over a list that is not empty is not empty. *)
Lemma fetch_docs_non_empty (w : World.t) (hits : list Hit.t) :
  Researcher.fetch_docs w hits ≠ [].
Proof.
  unfold Researcher.fetch_docs. by destruct (Researcher.tool_calls hits).
Qed.


(** What the stage writes besides the trace. *)
Lemma researcher_fields (w : World.t) (t0 t1 : Float.float) (state : State.t) :
  let hits :=
    web_search w (Py.first_truthy [State.query state; State.ticker state]) 10 in
  State.web_results (Researcher.node w t0 t1 state) = Some hits ∧
  State.docs (Researcher.node w t0 t1 state) = Some (Researcher.fetch_docs w hits).
Proof. split; reflexivity. Qed.



Example researcher_no_links :
  State.docs (Researcher.node no_links Float.zero Float.zero (State.initial "nvda" None))
  = Some [Doc.make "" "Only a title" "..."] ∧
  State.docs (Researcher.node offline Float.zero Float.zero (State.initial "nvda" None))
  = Some [Doc.make "" "" ""].
Proof. split; vm_compute; reflexivity. Qed.

(** Hits with links are fetched even when every request fails: the
    documents are then the failed pages, with empty title and text. *)
Example researcher_failed_fetch :
  State.docs
    (Researcher.node three_results Float.zero Float.zero (State.initial "nvda" None))
  = Some [Doc.make "https://a.example" "" ""; Doc.make "https://b.example" "" ""].
Proof. vm_compute. reflexivity. Qed.

End Research.

(** ** The trace *)

Section Trace.

Import Tools Spec Sample.

Lemma log_trace e s : trace_of (State.log e s) = (trace_of s ++ [e])%list.
Proof. reflexivity. Qed.

Lemma researcher_trace w t0 t1 s :
  appends_start_and_done Graph.Researcher s (Researcher.node w t0 t1 s).
Proof.
  eexists _, _. split; [|split; [|split]].
  - unfold Researcher.node. rewrite log_trace. unfold trace_of at 1. simpl.
    rewrite <- app_assoc. reflexivity.
  - reflexivity.
  - reflexivity.
  - by eexists.
Qed.

Lemma curator_trace w t0 t1 now_ms reg s :
  appends_start_and_done Graph.Curator s (Curator.node w t0 t1 now_ms reg s).1.
Proof.
  unfold Curator.node. destruct (build_index _ _ _) as [idx reg'].
  eexists _, _. split; [|split; [|split]].
  - cbn [fst]. rewrite log_trace. unfold trace_of at 1. simpl.
    rewrite <- app_assoc. reflexivity.
  - reflexivity.
  - reflexivity.
  - by eexists.
Qed.

Lemma fact_checker_trace w t0 t1 m s :
  appends_start_and_done Graph.FactChecker s (FactChecker.node w t0 t1 m s).
Proof.
  eexists _, _. split; [|split; [|split]].
  - unfold FactChecker.node. rewrite log_trace. unfold trace_of at 1. simpl.
    rewrite <- app_assoc. reflexivity.
  - reflexivity.
  - reflexivity.
  - by eexists.
Qed.

(** C9 fails on the fourth stage: [writer.node] never touches [trace],
    so after it the trace is the one it was given, with no event of the
    writer in it, where each of the three stages before it appends its
    two events. *)
Theorem writer_appends_no_trace (w : World.t) (now_s : Z) (state : State.t) :
  State.trace (Writer.node w now_s state) = State.trace state ∧
  ¬ appends_start_and_done Graph.Writer state (Writer.node w now_s state).
Proof.
  split; [reflexivity|]. intros [e0 [e1 [H _]]].
  assert (Hlen : length (trace_of (Writer.node w now_s state))
                 = length (trace_of state)) by reflexivity.
  rewrite H, length_app in Hlen. simpl in Hlen. lia.
Qed.

(** What does hold of the four stages: the first three append their two
    events, and none removes or changes an event written before. *)
Lemma stage_trace (e : Graph.env) (st : Graph.stage)
    (sr : State.t * gmap string (list LangDoc.t)) :
  trace_of sr.1 `prefix_of` trace_of (Graph.run_stage e st sr).1 ∧
  (st ≠ Graph.Writer → appends_start_and_done st sr.1 (Graph.run_stage e st sr).1).
Proof.
  assert (Happ : ∀ s', appends_start_and_done st sr.1 s' →
                       trace_of sr.1 `prefix_of` trace_of s').
  { intros s' [e0 [e1 [-> _]]]. by eexists. }
  unfold Graph.run_stage. destruct (Graph.clock e st) as [t0 t1].
  destruct st; cbn [fst].
  - pose proof (researcher_trace (Graph.world e) t0 t1 sr.1). auto.
  - pose proof (curator_trace (Graph.world e) t0 t1 (Graph.index_ms e) sr.2 sr.1). auto.
  - pose proof (fact_checker_trace (Graph.world e) t0 t1 (Graph.min_overlap e) sr.1). auto.
  - split; [reflexivity | done].
Qed.

(** A whole run leaves six events, none of the writer. *)
Lemma invoke_trace (e : Graph.env) (sr : State.t * gmap string (list LangDoc.t)) :
  TraceEvent.node <$> trace_of (Graph.invoke e sr).1
  = ((TraceEvent.node <$> trace_of sr.1)
     ++ ["researcher"; "researcher:done"; "curator"; "curator:done";
         "fact_checker"; "fact_checker:done"])%list.
Proof.
  unfold Graph.invoke, Graph.stages. simpl. unfold Graph.run_stage at 1.
  destruct (Graph.clock e Graph.Writer) as [t0 t1]. cbn [fst].
  change (trace_of (Writer.node ?w ?n ?s)) with (trace_of s).
  set (s1 := Graph.run_stage e Graph.Researcher sr).
  set (s2 := Graph.run_stage e Graph.Curator s1).
  set (s3 := Graph.run_stage e Graph.FactChecker s2).
  destruct (stage_trace e Graph.Researcher sr) as [_ H1].
  destruct (stage_trace e Graph.Curator s1) as [_ H2].
  destruct (stage_trace e Graph.FactChecker s2) as [_ H3].
  destruct (H1 ltac:(done)) as [a0 [a1 [E1 [N1 [N1' _]]]]].
  destruct (H2 ltac:(done)) as [b0 [b1 [E2 [N2 [N2' _]]]]].
  destruct (H3 ltac:(done)) as [c0 [c1 [E3 [N3 [N3' _]]]]].
  fold s1 in E1. fold s1 s2 in E2. fold s2 s3 in E3.
  rewrite E3, E2, E1, !fmap_app. simpl.
  rewrite N1, N1', N2, N2', N3, N3'. rewrite <- !app_assoc. reflexivity.
Qed.

(** A run with every provider down: one document made of empty strings,
    the fallback summary, no claim, a report path, and the six events. *)
Example invoke_offline :
  let final := (Graph.invoke offline_env (State.initial "NVIDIA outlook" (Some "NVDA"), ∅)).1 in
  State.docs final = Some [Doc.make "" "" ""] ∧
  State.checked_claims final = Some [] ∧
  State.report_html final = Some "outputs/report_1700000002.html" ∧
  TraceEvent.node <$> trace_of final
  = ["researcher"; "researcher:done"; "curator"; "curator:done";
     "fact_checker"; "fact_checker:done"].
Proof. repeat split; vm_compute; reflexivity. Qed.

End Trace.

(** ** KPIs *)

Section Kpis.

Import Tools Spec Sample.

(** [kpi.update(fb)] gives every key of the fallback the fallback's
    value. *)
Lemma update_takes_fallback (kpi fb : gmap string Float.float) k v :
  fb !! k = Some v → Writer.update kpi fb !! k = Some v.
Proof. intros H. unfold Writer.update. by apply lookup_union_Some_l. Qed.

Lemma update_keeps_rest (kpi fb : gmap string Float.float) k :
  fb !! k = None → Writer.update kpi fb !! k = kpi !! k.
Proof. intros H. unfold Writer.update. by apply lookup_union_r. Qed.

(** Inside [kpi_web_fallback] a key that has a value keeps it: through
    the pages read, and through the market data at the end. *)
Lemma fallback_scan_keeps (w : World.t) hits (results : gmap string Float.float) k v :
  results !! k = Some v → fallback_scan w hits results !! k = Some v.
Proof.
  revert results. induction hits as [|h r IH]; intros results Hk; simpl; [done|].
  destruct (Py.truthy (hit_text w h)); simpl; [|by apply IH].
  assert (Hu : (results ∪ extract_kpis_from_page w (hit_text w h)) !! k = Some v)
    by by apply lookup_union_Some_l.
  destruct (has_all_kpis _); [done | by apply IH].
Qed.

Lemma kpi_web_fallback_first_wins (w : World.t) q k v :
  fallback_scan w (concat ((fun q => web_search w q 6) <$> fallback_queries q)) ∅ !! k
  = Some v →
  kpi_web_fallback w q !! k = Some v.
Proof. intros H. unfold kpi_web_fallback. by apply lookup_union_Some_l. Qed.

(** As soon as one of the four names is missing after the extraction,
    every key of the fallback ends with the fallback's value, present
    before or not. *)
Lemma writer_kpis_takes_fallback (w : World.t) t q docs k v :
  has_all_kpis (extract_kpis_from_page w (Writer.aggregate docs)) = false →
  kpi_web_fallback w (Py.get_or t q) !! k = Some v →
  Writer.kpis w t q docs !! k = Some v.
Proof.
  intros Hmiss Hfb. unfold Writer.kpis. rewrite Hmiss. simpl.
  by apply update_takes_fallback.
Qed.

(** C2 fails in [writer.node]: the documents give the P/E ratio 25, one
    of the other three names is missing, the fallback runs and comes
    back with 30, and [kpi.update(fb)] writes 30 over 25. *)
Theorem writer_kpis_overwrite :
  extract_kpis_from_page pe_world (Writer.aggregate [doc_pe]) !! "p_e_ratio"
  = Some (Float.of_Z 25) ∧
  kpi_web_fallback pe_world "NVDA" !! "p_e_ratio" = Some (Float.of_Z 30) ∧
  Writer.kpis pe_world (Some "NVDA") "nvda outlook" [doc_pe] !! "p_e_ratio"
  = Some (Float.of_Z 30).
Proof. repeat split; vm_compute; reflexivity. Qed.

End Kpis.

(** ** Floats *)

Section RoundingFacts.
Variable prec emax : Z.

Lemma shr_1_nonneg mrs : (0 ≤ shr_m mrs)%Z → (0 ≤ shr_m (shr_1 mrs))%Z.
Proof.
  destruct mrs as [m r s]. simpl. intros Hm.
  destruct m as [|p|p]; [simpl; lia | | lia].
  destruct p; simpl; lia.
Qed.

Lemma iter_pos_invariant {A} (P : A → Prop) (f : A → A) :
  (∀ x, P x → P (f x)) → ∀ n x, P x → P (SpecFloat.iter_pos f n x).
Proof.
  intros Hf. induction n as [n IH|n IH|]; intros x Hx; simpl; auto.
Qed.

Lemma shr_nonneg mrs e n : (0 ≤ shr_m mrs)%Z → (0 ≤ shr_m (shr mrs e n).1)%Z.
Proof.
  intros Hm. unfold shr. destruct n; simpl; try done.
  apply (iter_pos_invariant (fun x => (0 ≤ shr_m x)%Z)); [apply shr_1_nonneg | done].
Qed.

Lemma shr_record_of_loc_m m l : shr_m (shr_record_of_loc m l) = m.
Proof. destruct l as [|[]]; reflexivity. Qed.

Lemma shr_fexp_nonneg m e l :
  (0 ≤ m)%Z → (0 ≤ shr_m (shr_fexp prec emax m e l).1)%Z.
Proof.
  intros Hm. unfold shr_fexp. apply shr_nonneg. by rewrite shr_record_of_loc_m.
Qed.

Lemma round_nearest_even_nonneg m l : (0 ≤ m)%Z → (0 ≤ round_nearest_even m l)%Z.
Proof.
  intros Hm. unfold round_nearest_even.
  destruct l as [|[]]; try done; [destruct (Z.even m)|]; lia.
Qed.

Lemma binary_round_aux_not_nan sx mx ex lx :
  (0 ≤ mx)%Z → binary_round_aux prec emax sx mx ex lx ≠ S754_nan.
Proof.
  intros Hm. unfold binary_round_aux.
  pose proof (shr_fexp_nonneg mx ex lx Hm) as H1.
  destruct (shr_fexp prec emax mx ex lx) as [mrs' e']. simpl in H1.
  pose proof (shr_fexp_nonneg _ e' loc_Exact
                (round_nearest_even_nonneg _ (loc_of_shr_record mrs') H1)) as H2.
  destruct (shr_fexp prec emax _ e' loc_Exact) as [mrs'' e'']. simpl in H2.
  destruct (shr_m mrs'') as [|p|p]; [done | | lia].
  by destruct (e'' <=? emax - prec)%Z.
Qed.

Lemma binary_round_not_nan sx mx ex : binary_round prec emax sx mx ex ≠ S754_nan.
Proof.
  unfold binary_round. destruct (shl_align _ _ _) as [mz ez].
  by apply binary_round_aux_not_nan.
Qed.

Lemma binary_normalize_not_nan m e sz : binary_normalize prec emax m e sz ≠ S754_nan.
Proof.
  unfold binary_normalize. destruct m; [done | |]; apply binary_round_not_nan.
Qed.

End RoundingFacts.

Lemma SFcompare_antisym x y : SFcompare y x = CompOpp <$> SFcompare x y.
Proof.
  destruct x as [sx|sx| |sx mx ex], y as [sy|sy| |sy my ey]; simpl;
    try reflexivity; try (destruct sx; reflexivity); try (destruct sy; reflexivity);
    try (destruct sx, sy; reflexivity).
  f_equal. rewrite (Z.compare_antisym ex ey).
  destruct sx, sy; try reflexivity; destruct (ex ?= ey)%Z; simpl; try reflexivity.
  - by rewrite (Pos.compare_cont_antisym mx my Eq).
  - by rewrite (Pos.compare_cont_antisym mx my Eq).
Qed.

Section FloatFacts.

Import Float.

Lemma is_nan_false x : x ≠ S754_nan → is_nan x = false.
Proof. by destruct x. Qed.

Lemma add_not_nan x y :
  is_nan x = false → is_finite y = true → is_nan (add x y) = false.
Proof.
  destruct x as [sx|sx| |sx mx ex], y as [sy|sy| |sy my ey]; try done; intros _ _.
  - by destruct sx, sy.
  - apply is_nan_false, binary_normalize_not_nan.
Qed.

Lemma add_not_nan_l x y :
  is_finite x = true → is_nan y = false → is_nan (add x y) = false.
Proof.
  destruct x as [sx|sx| |sx mx ex], y as [sy|sy| |sy my ey]; try done; intros _ _.
  - by destruct sx, sy.
  - apply is_nan_false, binary_normalize_not_nan.
Qed.

Lemma sub_not_nan x y :
  is_nan x = false → is_finite y = true → is_nan (sub x y) = false.
Proof.
  destruct x as [sx|sx| |sx mx ex], y as [sy|sy| |sy my ey]; try done; intros _ _.
  - by destruct sx, sy.
  - apply is_nan_false, binary_normalize_not_nan.
Qed.

Lemma mul_not_nan x y :
  is_nan x = false → is_normal y = true → is_nan (mul x y) = false.
Proof.
  destruct x as [sx|sx| |sx mx ex], y as [sy|sy| |sy my ey]; try done; intros _ _.
  apply is_nan_false, binary_round_aux_not_nan. done.
Qed.

(** A value that is no NaN, clamped between two finite bounds, is finite. *)
Lemma clamp_finite x lo hi :
  is_nan x = false → is_finite lo = true → is_finite hi = true →
  is_finite (py_min (py_max x lo) hi) = true.
Proof.
  intros Hx Hlo Hhi. unfold py_min, py_max.
  destruct x as [sx|sx| |sx mx ex]; try done; [case_if; done | | case_if; done].
  unfold ltb, SFltb.
  destruct lo as [sl|sl| |sl ml el], hi as [sh|sh| |sh mh eh]; try done;
    destruct sx; cbn [SFcompare]; case_if; done.
Qed.

(** Away from NaN, [np.clip] is the clamp by [max] and [min]. *)
Lemma np_clip_clamp x lo hi :
  is_nan x = false → is_nan lo = false → is_nan hi = false →
  np_clip x lo hi = py_min (py_max x lo) hi.
Proof.
  intros Hx Hlo Hhi. unfold np_clip, np_minimum, np_maximum, py_min, py_max.
  rewrite Hx, Hlo, Hhi. cbn [orb].
  destruct (ltb x lo); [rewrite Hlo | rewrite Hx]; reflexivity.
Qed.

Lemma finite_not_nan x : is_finite x = true → is_nan x = false.
Proof. by destruct x. Qed.

Lemma np_clip_finite x lo hi :
  is_nan x = false → is_finite lo = true → is_finite hi = true →
  is_finite (np_clip x lo hi) = true.
Proof.
  intros Hx Hlo Hhi. rewrite np_clip_clamp by auto using finite_not_nan.
  by apply clamp_finite.
Qed.


(** [max(a, c)] is at least [c] as soon as [a] is no NaN. *)
Lemma py_max_floor a c :
  is_nan a = false → leb c c = true → leb c (py_max a c) = true.
Proof.
  intros Ha Hc. unfold py_max. destruct (ltb a c) eqn:Hlt; [exact Hc|].
  unfold ltb, leb, SFltb, SFleb in *. rewrite (SFcompare_antisym a c).
  destruct (SFcompare a c) as [[]|] eqn:Hcmp; simpl; try done.
  destruct a, c; done.
Qed.

End FloatFacts.

(** ** The growth estimate *)

Section Growth.

Import Float Tools Spec Sample.

Lemma margin_adj_not_nan m mid scale lo hi adj :
  (∀ x, m = Some x → is_nan x = false) →
  is_finite mid = true → is_normal scale = true →
  is_finite lo = true → is_finite hi = true →
  is_nan adj = false → is_nan (margin_adj m mid scale lo hi adj) = false.
Proof.
  intros Hm Hmid Hscale Hlo Hhi Hadj. unfold margin_adj.
  destruct m as [x|]; [|done]. destruct (truthy x); [|done].
  apply add_not_nan; [done|]. apply clamp_finite; [|done..].
  apply mul_not_nan; [|done]. apply sub_not_nan; [|done]. by apply Hm.
Qed.

Lemma pe_adj_not_nan pe adj : is_nan adj = false → is_nan (pe_adj pe adj) = false.
Proof.
  intros Hadj. unfold pe_adj. destruct pe as [x|]; [|done].
  case_if; try done; [apply add_not_nan | apply sub_not_nan]; done.
Qed.

Lemma clip_adj_not_nan v scale lo hi adj :
  (∀ x, v = Some x → is_nan x = false) →
  is_normal scale = true → is_finite lo = true → is_finite hi = true →
  is_nan adj = false → is_nan (clip_adj v scale lo hi adj) = false.
Proof.
  intros Hv Hscale Hlo Hhi Hadj. unfold clip_adj. destruct v as [x|]; [|done].
  apply add_not_nan; [done|]. apply np_clip_finite; [|done..].
  apply mul_not_nan; [|done]. by apply Hv.
Qed.

(** X19: the floor holds as long as no NaN comes in: with margins, CAGR
    and momentum that are numbers (infinite ones included), and any P/E
    ratio, the estimate is at least 0.01. *)
Lemma estimate_growth_floor (kpi : gmap string float) (momentum cagr : option float) :
  (∀ x, kpi !! "gross_margin" = Some x → is_nan x = false) →
  (∀ x, kpi !! "operating_margin" = Some x → is_nan x = false) →
  (∀ x, cagr = Some x → is_nan x = false) →
  (∀ x, momentum = Some x → is_nan x = false) →
  leb (dec 1 100) (_estimate_growth kpi momentum cagr) = true.
Proof.
  intros Hgm Hom Hc Hm. unfold _estimate_growth.
  apply py_max_floor; [|reflexivity].
  apply add_not_nan_l; [reflexivity|].
  apply clip_adj_not_nan; [done | reflexivity..|].
  apply clip_adj_not_nan; [done | reflexivity..|].
  apply pe_adj_not_nan.
  apply margin_adj_not_nan; [done | reflexivity..|].
  apply margin_adj_not_nan; [done | reflexivity..|].
  reflexivity.
Qed.

(** C6 fails on a NaN: a gross margin that is NaN, as the fallback
    yields it from a missing cell, goes through [min], [max] and the
    final [max(base + adj, 0.01)], and the estimate is NaN, which is not
    at least 0.01. *)
Theorem estimate_growth_nan :
  _estimate_growth {[ "gross_margin" := nan ]} None None = nan ∧
  leb (dec 1 100) (_estimate_growth {[ "gross_margin" := nan ]} None None) = false ∧
  Writer.kpis nan_world (Some "NVDA") "nvda outlook" [] !! "gross_margin" = Some nan ∧
  (price_projection_chart nan_world "NVDA"
     (Writer.kpis nan_world (Some "NVDA") "nvda outlook" []) None None).1 = nan.
Proof. repeat split; vm_compute; reflexivity. Qed.

Example estimate_growth_samples :
  _estimate_growth ∅ None None = dec 8 100 ∧
  _estimate_growth
    {[ "gross_margin" := dec 1 100; "operating_margin" := neg (of_Z 5);
       "p_e_ratio" := of_Z 80 ]}
    (Some (neg (of_Z 1))) (Some (neg (of_Z 9)))
  = dec 1 100 ∧
  _estimate_growth {[ "gross_margin" := S754_infinity true ]} None None
  = py_max (add (dec 8 100) (neg (dec 5 100))) (dec 1 100).
Proof. repeat split; vm_compute; reflexivity. Qed.

End Growth.

(** * Part IV: further properties of the code *)

(** ** Strings *)

Section MoreStrings.

Lemma take_length (n : Z) (s : string) :
  (String.length (Py.take n s) ≤ Z.to_nat n)%nat.
Proof.
  revert n. induction s as [|a s IH]; intros n; simpl; [lia|].
  destruct (0 <? n)%Z eqn:Hn; simpl; [|lia].
  apply Z.ltb_lt in Hn. specialize (IH (n - 1)%Z). lia.
Qed.

Lemma take_length_Z (n : Z) (s : string) :
  (0 ≤ n)%Z → (Z.of_nat (String.length (Py.take n s)) ≤ n)%Z.
Proof. intros Hn. pose proof (take_length n s). lia. Qed.

Lemma lower_char_idem (a : ascii) : Py.lower_char (Py.lower_char a) = Py.lower_char a.
Proof.
  destruct a as [b0 b1 b2 b3 b4 b5 b6 b7].
  destruct b0, b1, b2, b3, b4, b5, b6, b7; reflexivity.
Qed.

Lemma lower_idem (s : string) : Py.lower (Py.lower s) = Py.lower s.
Proof. induction s as [|a s IH]; simpl; [done|]. by rewrite lower_char_idem, IH. Qed.

End MoreStrings.

(** ** More on claim verification *)

Section MoreVerify.

Import Tools Spec Sample.

(** The result for one claim, read off the loop. *)
Lemma verify_one_fields sources m c :
  verify_one sources m c !! "verdict" = Some (VBool (reaches (tokens c) m sources)) ∧
  verify_one sources m c !! "evidence_url"
  = Some (of_opt_str (best_url (tokens c) sources)) ∧
  verify_one sources m c !! "note"
  = Some (VStr ("overlap=" ++ Py.str_of_nat (max_overlap (tokens c) sources))).
Proof.
  unfold verify_one.
  by rewrite entry_verdict, entry_evidence_url, entry_note, scan_verdict, scan_url,
    scan_overlap_max.
Qed.

Lemma overlap_le_tokens toks s : (overlap_of toks s ≤ length toks)%nat.
Proof. unfold overlap_of. apply length_filter. Qed.

(** X1: a claim is marked true under a threshold of at least 1 only if
    one of its tokens occurs in the lowered text of some source. *)
Theorem verdict_needs_shared_token (claims : list string) (sources : list Doc.t)
    (min_overlap : Z) (v : gmap string pyval) :
  (1 ≤ min_overlap)%Z →
  v ∈ verify_claims_tool claims sources min_overlap →
  v !! "verdict" = Some (VBool true) →
  ∃ c s t p q,
    v !! "claim" = Some (VStr c) ∧ c ∈ claims ∧ s ∈ sources ∧ t ∈ tokens c ∧
    source_text s = p ++ t ++ q.
Proof.
  intros Hm Hv Htrue. unfold verify_claims_tool in Hv.
  apply list_elem_of_fmap in Hv as [c [-> Hc]].
  destruct (verify_one_fields sources min_overlap c) as [Hverdict _].
  rewrite Hverdict in Htrue. injection Htrue as Hr.
  apply reaches_spec in Hr as [s [Hs Hov]].
  assert (Hpos : 0 < overlap_of (tokens c) s) by lia.
  unfold overlap_of in Hpos.
  destruct (filter _ (tokens c)) as [|t l] eqn:Hf; [simpl in Hpos; lia|].
  assert (Ht : t ∈ filter (fun t => Py.contains t (source_text s) = true) (tokens c)).
  { rewrite Hf. apply elem_of_cons. by left. }
  apply list_elem_of_filter in Ht as [Hcont Ht].
  apply contains_spec in Hcont as [p [q Hpq]].
  exists c, s, t, p, q. split; [apply entry_claim | done].
Qed.

Lemma verdict_needs_shared_token_witness :
  ∃ c s t p q,
    verify_one [doc_weather; doc_revenue] 1 claim_2024 !! "claim" = Some (VStr c) ∧
    c ∈ [claim_2024] ∧ s ∈ [doc_weather; doc_revenue] ∧ t ∈ tokens c ∧
    source_text s = p ++ t ++ q.
Proof.
  apply (verdict_needs_shared_token [claim_2024] [doc_weather; doc_revenue] 1).
  - discriminate.
  - apply list_elem_of_singleton. reflexivity.
  - reflexivity.
Defined.

(** X2: a threshold above the number of tokens of a claim is never
    met: the verdict is false whatever the sources; in particular a
    claim made of words of three characters or fewer is never marked true
    under a positive threshold. *)
Theorem threshold_above_tokens (sources : list Doc.t) (min_overlap : Z) (c : string) :
  (Z.of_nat (length (tokens c)) < min_overlap)%Z →
  verify_one sources min_overlap c !! "verdict" = Some (VBool false).
Proof.
  intros Hm. destruct (verify_one_fields sources min_overlap c) as [-> _].
  do 2 f_equal. apply not_true_is_false. intros Hr.
  apply reaches_spec in Hr as [s [_ Hs]].
  pose proof (overlap_le_tokens (tokens c) s). lia.
Qed.

Lemma threshold_above_tokens_witness :
  verify_one [Doc.make "u" "t" "the cat sat on a mat"] 1 "The cat sat on a mat" !! "verdict"
  = Some (VBool false).
Proof. apply threshold_above_tokens. reflexivity. Defined.

(** X3: verification does not see letter case: lowering a claim, or the
    text of the sources, changes neither verdict, evidence nor note. *)
Theorem verify_case_insensitive (sources : list Doc.t) (min_overlap : Z) (c : string)
    (k : string) :
  k ≠ "claim" →
  verify_one sources min_overlap (Py.lower c) !! k = verify_one sources min_overlap c !! k ∧
  verify_one
    ((fun s => {| Doc.url := Doc.url s; Doc.title := Doc.title s;
                  Doc.text := Py.lower <$> Doc.text s;
                  Doc.metadata := Doc.metadata s |}) <$> sources)
    min_overlap c !! k
  = verify_one sources min_overlap c !! k.
Proof.
  intros Hk. split.
  - unfold verify_one, tokens. rewrite lower_idem. unfold entry.
    by rewrite !(lookup_insert_ne _ "claim") by done.
  - unfold verify_one. f_equal. f_equal. unfold scan.
    generalize init as a. induction sources as [|s l IH]; intros a; [done|].
    simpl. rewrite <- IH. f_equal. unfold step, overlap_of, source_text, source_url,
      metadata_url. simpl.
    assert (Heq : Py.lower (Py.get_or (Py.lower <$> Doc.text s) "")
                  = Py.lower (Py.get_or (Doc.text s) "")).
    { destruct (Doc.text s) as [[|x r]|]; simpl; try done. by rewrite lower_char_idem, lower_idem. }
    by rewrite Heq.
Qed.

Lemma verify_case_insensitive_witness :
  verify_one [doc_revenue] 1 (Py.lower claim_2024) !! "verdict"
  = verify_one [doc_revenue] 1 claim_2024 !! "verdict" ∧
  verify_one
    ((fun s => {| Doc.url := Doc.url s; Doc.title := Doc.title s;
                  Doc.text := Py.lower <$> Doc.text s;
                  Doc.metadata := Doc.metadata s |}) <$> [doc_revenue])
    1 claim_2024 !! "verdict"
  = verify_one [doc_revenue] 1 claim_2024 !! "verdict".
Proof. apply (verify_case_insensitive [doc_revenue] 1 claim_2024 "verdict"). discriminate. Defined.

End MoreVerify.

Section VerifySources.

Import Tools Spec Sample.

Lemma reaches_subseteq toks m (l k : list Doc.t) :
  l ⊆ k → reaches toks m l = true → reaches toks m k = true.
Proof.
  intros Hsub [s [Hs Hov]]%reaches_spec. apply reaches_spec.
  exists s. split; [by apply Hsub | done].
Qed.

Lemma reaches_perm toks m (l k : list Doc.t) :
  l ≡ₚ k → reaches toks m l = reaches toks m k.
Proof.
  intros Hp. destruct (reaches toks m l) eqn:Hl.
  - symmetry. apply (reaches_subseteq toks m l k); [|done].
    intros x Hx. by rewrite <- Hp.
  - symmetry. apply not_true_is_false. intros Hk. apply not_true_iff_false in Hl.
    apply Hl. apply (reaches_subseteq toks m k l); [|done].
    intros x Hx. by rewrite Hp.
Qed.

(** X4: the order of the sources does not matter for the verdict or for
    the overlap noted: on a permutation of the sources both are the same
    (the evidence URL may differ, it is the first best source's). *)
Theorem verify_sources_permutation (sources sources' : list Doc.t) (min_overlap : Z)
    (c : string) :
  sources ≡ₚ sources' →
  verify_one sources' min_overlap c !! "verdict"
  = verify_one sources min_overlap c !! "verdict" ∧
  verify_one sources' min_overlap c !! "note"
  = verify_one sources min_overlap c !! "note".
Proof.
  intros Hp.
  destruct (verify_one_fields sources min_overlap c) as [-> [_ ->]].
  destruct (verify_one_fields sources' min_overlap c) as [-> [_ ->]].
  rewrite (reaches_perm _ _ _ _ Hp). unfold max_overlap. by rewrite Hp.
Qed.

Lemma verify_sources_permutation_witness :
  verify_one [doc_revenue; doc_weather] 1 claim_2024 !! "verdict"
  = verify_one [doc_weather; doc_revenue] 1 claim_2024 !! "verdict" ∧
  verify_one [doc_revenue; doc_weather] 1 claim_2024 !! "note"
  = verify_one [doc_weather; doc_revenue] 1 claim_2024 !! "note".
Proof.
  apply (verify_sources_permutation [doc_weather; doc_revenue] [doc_revenue; doc_weather]).
  apply Permutation_swap.
Defined.

(** X5: more sources never lose a verdict: a claim marked true against a
    list of sources is marked true against every list that holds them. *)
Theorem verify_more_sources (sources sources' : list Doc.t) (min_overlap : Z)
    (c : string) :
  sources ⊆ sources' →
  verify_one sources min_overlap c !! "verdict" = Some (VBool true) →
  verify_one sources' min_overlap c !! "verdict" = Some (VBool true).
Proof.
  intros Hsub.
  destruct (verify_one_fields sources min_overlap c) as [-> _].
  destruct (verify_one_fields sources' min_overlap c) as [-> _].
  intros H. injection H as H. by rewrite (reaches_subseteq _ _ _ _ Hsub H).
Qed.

Lemma verify_more_sources_witness :
  verify_one [doc_weather; doc_revenue] 2 claim_2024 !! "verdict" = Some (VBool true).
Proof.
  apply (verify_more_sources [doc_revenue] [doc_weather; doc_revenue] 2 claim_2024).
  - intros x Hx. apply elem_of_cons. by right.
  - reflexivity.
Defined.

End VerifySources.

(** ** More on the web tools *)

Section MoreWeb.

Import Tools Spec Sample Cases.

(** A list whose keys are non-empty, distinct and not met before goes
    through the loop unchanged. *)
Lemma dedupe_fixed seen (l : list Hit.t) :
  NoDup (dedupe_key <$> l) →
  Forall (fun x => Py.truthy (dedupe_key x) = true ∧ dedupe_key x ∉ seen) l →
  dedupe seen l = l.
Proof.
  revert seen. induction l as [|x r IH]; intros seen Hnd Hall; [done|].
  rewrite fmap_cons in Hnd. apply NoDup_cons in Hnd as [Hx Hnd].
  apply Forall_cons in Hall as [[Ht Hs] Hall]. simpl.
  rewrite Ht, bool_decide_eq_false_2 by done. simpl. f_equal.
  apply IH; [done|]. apply Forall_forall. intros y Hy.
  rewrite Forall_forall in Hall. destruct (Hall y Hy) as [Hty Hsy].
  split; [done|]. intros [Hin|Hin]%elem_of_union; [|done].
  apply elem_of_singleton in Hin. apply Hx. rewrite <- Hin.
  apply list_elem_of_fmap. eauto.
Qed.

(** X6: every hit [web_search] returns has a non-empty link or title,
    and deduplicating its output again changes nothing. *)
Theorem web_search_output_stable (w : World.t) (query : string) (max_results : Z) :
  Forall (fun x => Py.truthy (Hit.link x) = true ∨ Py.truthy (Hit.title x) = true)
    (web_search w query max_results) ∧
  dedupe ∅ (web_search w query max_results) = web_search w query max_results.
Proof.
  pose proof (web_search_prefix w query max_results) as [k Hk].
  assert (Hall : Forall (fun x => Py.truthy (dedupe_key x) = true ∧ dedupe_key x ∉ (∅ : gset string))
                   (web_search w query max_results)).
  { apply Forall_forall. intros x Hx. split; [|set_solver].
    apply (dedupe_fresh ∅ (raw_hits w query max_results)).
    rewrite Hk. apply elem_of_app. by left. }
  split.
  - eapply Forall_impl; [exact Hall|]. intros x [Hx _]. unfold dedupe_key, Py.str_or in Hx.
    destruct (Py.truthy (Hit.link x)); auto.
  - apply dedupe_fixed; [apply web_search_keys_NoDup | exact Hall].
Qed.

(** X7: the second provider is asked only while fewer than three hits of
    the first carry a link: with three linked hits the output is the
    same whatever the second provider is or answers. *)
Theorem web_search_second_provider_skipped (w w' : World.t) (query : string)
    (max_results : Z) :
  World.ddg_invoke w = World.ddg_invoke w' →
  (3 ≤ length (filter (fun x => Py.truthy (Hit.link x) = true) (ddg_hits w query)))%nat →
  web_search w query max_results = web_search w' query max_results.
Proof.
  intros Hddg Hlinked. unfold web_search, raw_hits.
  assert (Hhits : ddg_hits w' query = ddg_hits w query).
  { unfold ddg_hits. by rewrite Hddg. }
  rewrite Hhits.
  destruct (World.ddgs_text w), (World.ddgs_text w');
    rewrite ?bool_decide_eq_false_2 by lia; reflexivity.
Qed.

Lemma web_search_second_provider_skipped_witness :
  web_search three_links "nvda" 8 = web_search three_links_failing "nvda" 8.
Proof.
  apply web_search_second_provider_skipped; [reflexivity|].
  vm_compute. repeat constructor.
Defined.

(** X8: a provider that fails never makes [web_search] fail: when the
    first raises and there is no second, the output for a positive
    [max_results] is the one hit that reports the error; when both are
    missing it is empty. *)
Theorem web_search_provider_down (w : World.t) (query : string) (max_results : Z) :
  World.ddgs_text w = None →
  (World.ddg_invoke w = None → web_search w query max_results = []) ∧
  (∀ f e, World.ddg_invoke w = Some f → f query = World.DdgRaise e →
          (1 ≤ max_results)%Z →
          web_search w query max_results = [error_hit "ddg_error" e]).
Proof.
  intros Hddgs. unfold web_search, raw_hits, ddg_hits. rewrite Hddgs. split.
  - intros ->. simpl. unfold Py.slice_to.
    destruct (0 <=? max_results)%Z; apply take_nil.
  - intros f e -> -> Hm. simpl. unfold Py.slice_to.
    rewrite (proj2 (Z.leb_le 0 max_results)) by lia.
    destruct (Z.to_nat max_results) eqn:Hn; [lia|].
    rewrite bool_decide_eq_false_2 by set_solver. simpl. by rewrite take_nil.
Qed.

Lemma web_search_provider_down_witness :
  web_search (with_ddg (fun _ => World.DdgRaise "rate limit") offline) "nvda" 10
  = [error_hit "ddg_error" "rate limit"].
Proof.
  apply (proj2 (web_search_provider_down
                  (with_ddg (fun _ => World.DdgRaise "rate limit") offline) "nvda" 10
                  eq_refl) (fun _ => World.DdgRaise "rate limit") "rate limit");
    [reflexivity | reflexivity | discriminate].
Defined.

(** X9: nothing is lost but duplicates and hits without a key: when
    [max_results] is at least the number of raw hits, every raw hit with
    a link or a title has its key among the keys of the output. *)
Theorem web_search_complete (w : World.t) (query : string) (max_results : Z)
    (y : Hit.t) :
  (Z.of_nat (length (raw_hits w query max_results)) ≤ max_results)%Z →
  y ∈ raw_hits w query max_results →
  Py.truthy (dedupe_key y) = true →
  dedupe_key y ∈ dedupe_key <$> web_search w query max_results.
Proof.
  intros Hlen Hy Ht. unfold web_search, Py.slice_to.
  rewrite (proj2 (Z.leb_le 0 max_results)) by lia.
  pose proof (sublist_length _ _ (dedupe_sublist ∅ (raw_hits w query max_results))).
  rewrite firstn_all2 by lia.
  destruct (dedupe_complete ∅ _ y Hy Ht) as [Hin|Hin]; [set_solver | done].
Qed.

Lemma web_search_complete_witness :
  dedupe_key {| Hit.title := "A again"; Hit.snippet := "..."; Hit.link := "https://a.example" |}
  ∈ dedupe_key <$> web_search three_results "nvda" 8.
Proof.
  apply (web_search_complete three_results "nvda" 8).
  - vm_compute. discriminate.
  - vm_compute. apply list_elem_of_further, list_elem_of_here.
  - reflexivity.
Defined.

(** X10: a fetched page holds at most 60000 characters and carries the
    address it was asked for; an empty address is answered without a
    request, and a failed request gives status 0 with empty title and
    text and the error. *)
Theorem http_fetch_result (w : World.t) (url : string) (timeout : Z) :
  let p := http_fetch w url timeout in
  (Z.of_nat (String.length (Page.text p)) ≤ 60000)%Z ∧
  Page.url p = url ∧
  (url = "" → Page.status p = 0%Z ∧ Page.text p = "" ∧ Page.error p = None) ∧
  (∀ e, url ≠ "" → World.requests_get w url timeout = World.HttpRaise e →
        Page.status p = 0%Z ∧ Page.title p = "" ∧ Page.text p = "" ∧ Page.error p = Some e).
Proof.
  unfold http_fetch. destruct url as [|a u]; simpl.
  - repeat split; try done; lia.
  - destruct (World.requests_get w (String a u) timeout) as [st body|e] eqn:Hr; simpl.
    + split; [by apply take_length_Z|]. split; [done|]. split; [done|].
      intros e _ He. discriminate He.
    + split; [lia|]. split; [done|]. split; [done|].
      intros e' _ He. injection He as <-. done.
Qed.

Lemma http_fetch_result_witness :
  Page.status (http_fetch offline "https://example.com" 15) = 0%Z ∧
  Page.title (http_fetch offline "https://example.com" 15) = "" ∧
  Page.text (http_fetch offline "https://example.com" 15) = "" ∧
  Page.error (http_fetch offline "https://example.com" 15) = Some "unreachable".
Proof.
  apply (proj2 (proj2 (proj2 (http_fetch_result offline "https://example.com" 15)))
           "unreachable"); [discriminate | reflexivity].
Defined.

End MoreWeb.

(** ** More on the KPIs *)

Section MoreKpis.

Import Float Tools Spec Sample Cases.

(** X11: the patterns of a KPI are tried in order and the first that
    matches and reads as a number wins. *)
Theorem extract_first_first_match (w : World.t) (text : string) (patterns : list string)
    (v : float) :
  _extract_first w text patterns = Some v ↔
  ∃ i pat, patterns !! i = Some pat ∧ parse_with w text pat = Some v ∧
           ∀ j p, j < i → patterns !! j = Some p → parse_with w text p = None.
Proof.
  unfold _extract_first, parse_with. generalize (Py.lower text) as t. intros t.
  induction patterns as [|pat r IH]; simpl.
  - split; [done | intros [i [p [Hp _]]]; done].
  - destruct (World.re_search w pat t ≫= World.float_of_str w) as [x|] eqn:Hx.
    + split.
      * intros [= <-]. exists 0, pat. repeat split; [done|]. intros j p Hj. lia.
      * intros [i [p [Hi [Hp Hbefore]]]]. destruct i as [|i].
        -- injection Hi as <-. congruence.
        -- specialize (Hbefore 0 pat ltac:(lia) eq_refl). congruence.
    + rewrite IH. split.
      * intros [i [p [Hi [Hp Hbefore]]]]. exists (S i), p. repeat split; [done..|].
        intros [|j] p' Hj Hp'; [by injection Hp' as <- |].
        apply (Hbefore j p'); [lia | done].
      * intros [i [p [Hi [Hp Hbefore]]]]. destruct i as [|i].
        -- injection Hi as <-. congruence.
        -- exists i, p. repeat split; [done..|].
           intros j p' Hj Hp'. apply (Hbefore (S j) p'); [lia | done].
Qed.

(** X12: what is read off a page: under each of the four KPI names, and
    under no other key, the first match of the name's patterns, divided
    by 100 for the two margins; a name without a match is left out. *)
Theorem extract_kpis_lookup (w : World.t) (text : string) (k : string) :
  extract_kpis_from_page w text !! k
  = match (list_to_map KPI_PATTERNS : gmap string (list string)) !! k with
    | Some patterns =>
        (fun v => if is_margin k then div v (of_Z 100) else v)
        <$> _extract_first w text patterns
    | None => None
    end.
Proof.
  unfold extract_kpis_from_page, KPI_PATTERNS. cbn [foldl]. unfold extract_kpi.
  cbn [fst snd list_to_map foldr].
  destruct (decide (k = "p_e_ratio")) as [->|H1];
    [|destruct (decide (k = "p_s_ratio")) as [->|H2];
      [|destruct (decide (k = "gross_margin")) as [->|H3];
        [|destruct (decide (k = "operating_margin")) as [->|H4]]]];
    repeat first [ rewrite (lookup_insert_eq (M := gmap string))
                 | rewrite (lookup_insert_ne (M := gmap string)) by done
                 | rewrite lookup_empty ];
    cbv beta iota;
    repeat match goal with
           | |- context [_extract_first w text ?l] =>
               destruct (_extract_first w text l)
           end;
    by simplify_map_eq.
Qed.

End MoreKpis.

Section KpiKeys.

Import Float Tools Spec Sample Cases.

Lemma extract_kpis_names (w : World.t) (text k : string) (v : float) :
  extract_kpis_from_page w text !! k = Some v → k ∈ KPI_NAMES.
Proof.
  unfold extract_kpis_from_page, KPI_PATTERNS, KPI_NAMES. cbn [foldl].
  unfold extract_kpi. cbn [fst snd].
  repeat match goal with
         | |- context [_extract_first w text ?l] => destruct (_extract_first w text l)
         end;
    intros H;
    repeat match type of H with
           | <[_ := _]> _ !! _ = Some _ =>
               apply lookup_insert_Some in H as [[<- _]|[_ H]]; [set_solver|]
           end;
    by rewrite lookup_empty in H.
Qed.

Lemma set_if_names (n k : string) o (out : gmap string float) (v : float) :
  n ∈ KPI_NAMES →
  (∀ v', out !! k = Some v' → k ∈ KPI_NAMES) →
  set_if n o out !! k = Some v → k ∈ KPI_NAMES.
Proof.
  intros Hn Hout. unfold set_if. destruct o as [x|]; [|apply Hout].
  intros [[<- _]|[_ H]]%lookup_insert_Some; [done | by eapply Hout].
Qed.

Lemma yfinance_names (w : World.t) (ticker k : string) (v : float) :
  _kpi_from_yfinance w ticker !! k = Some v → k ∈ KPI_NAMES.
Proof.
  unfold _kpi_from_yfinance.
  destruct (World.yf_ticker w ticker) as [tk|]; [|by rewrite lookup_empty].
  destruct (World.info tk) as [info|]; [|by rewrite lookup_empty].
  assert (H0 : ∀ v', (∅ : gmap string float) !! k = Some v' → k ∈ KPI_NAMES)
    by (intros v'; by rewrite lookup_empty).
  destruct (World.financials tk) as [getv|];
    repeat (apply set_if_names; [set_solver | intros ?]); apply H0.
Qed.

Lemma fallback_scan_names (w : World.t) hits (results : gmap string float) k v :
  (∀ v', results !! k = Some v' → k ∈ KPI_NAMES) →
  fallback_scan w hits results !! k = Some v → k ∈ KPI_NAMES.
Proof.
  revert results. induction hits as [|h r IH]; intros results Hres; simpl; [apply Hres|].
  destruct (Py.truthy (hit_text w h)); simpl; [|by apply IH].
  assert (Hu : ∀ v', (results ∪ extract_kpis_from_page w (hit_text w h)) !! k = Some v'
                     → k ∈ KPI_NAMES).
  { intros v' [H|[_ H]]%lookup_union_Some_raw; [by eapply Hres|].
    by eapply extract_kpis_names. }
  destruct (has_all_kpis _); [apply Hu | by apply IH].
Qed.

(** X13: the KPI set the writer ends with, and the one the fallback
    returns, hold no key besides the four KPI names. *)
Theorem kpi_sets_hold_four_names (w : World.t) (t : option string) (q : string)
    (docs : list Doc.t) (k : string) :
  (is_Some (kpi_web_fallback w q !! k) → k ∈ KPI_NAMES) ∧
  (is_Some (Writer.kpis w t q docs !! k) → k ∈ KPI_NAMES).
Proof.
  assert (Hfb : ∀ q' v, kpi_web_fallback w q' !! k = Some v → k ∈ KPI_NAMES).
  { intros q' v. unfold kpi_web_fallback.
    intros [H|[_ H]]%lookup_union_Some_raw; [|by eapply yfinance_names].
    eapply fallback_scan_names; [|exact H]. intros v'. by rewrite lookup_empty. }
  split.
  - intros [v H]. by eapply Hfb.
  - intros [v H]. unfold Writer.kpis, Writer.update in H.
    destruct (negb _); [|by eapply extract_kpis_names].
    apply lookup_union_Some_raw in H as [H|[_ H]];
      [by eapply Hfb | by eapply extract_kpis_names].
Qed.

Lemma kpi_sets_hold_four_names_witness :
  "p_e_ratio" ∈ KPI_NAMES.
Proof.
  apply (proj2 (kpi_sets_hold_four_names pe_world (Some "NVDA") "nvda outlook" [doc_pe]
                  "p_e_ratio")).
  eexists. vm_compute. reflexivity.
Defined.

Lemma has_all_kpis_lookup (kpi : gmap string float) k :
  has_all_kpis kpi = true → k ∈ KPI_NAMES → is_Some (kpi !! k).
Proof.
  unfold has_all_kpis. rewrite forallb_forall. intros H Hk.
  apply (bool_decide_eq_true_1 _), H, list_elem_of_In, Hk.
Qed.

(** The first page with a value for [k] decides it. *)
Lemma fallback_scan_first_page (w : World.t) pre h post
    (results : gmap string float) k v :
  k ∈ KPI_NAMES → results !! k = None →
  Forall (fun h' => extract_kpis_from_page w (hit_text w h') !! k = None) pre →
  Py.truthy (hit_text w h) = true →
  extract_kpis_from_page w (hit_text w h) !! k = Some v →
  fallback_scan w (pre ++ h :: post) results !! k = Some v.
Proof.
  intros Hk. revert results. induction pre as [|h' pre IH]; intros results Hres Hpre Ht Hv.
  - simpl. rewrite Ht. simpl.
    assert (Hu : (results ∪ extract_kpis_from_page w (hit_text w h)) !! k = Some v).
    { apply lookup_union_Some_raw. right. done. }
    destruct (has_all_kpis _); [done | by apply fallback_scan_keeps].
  - apply Forall_cons in Hpre as [Hh' Hpre]. simpl.
    destruct (Py.truthy (hit_text w h')); simpl; [|by apply IH].
    assert (Hu : (results ∪ extract_kpis_from_page w (hit_text w h')) !! k = None).
    { apply lookup_union_None. done. }
    destruct (has_all_kpis _) eqn:Hall; [|by apply IH].
    destruct (has_all_kpis_lookup _ k Hall Hk) as [x Hx]. congruence.
Qed.

(** X14: in the fallback the first page that gives a KPI decides it:
    neither a later page nor the market data replaces the value. *)
Theorem kpi_web_fallback_first_page (w : World.t) (q : string) pre h post k v :
  concat ((fun q' => web_search w q' 6) <$> fallback_queries q) = (pre ++ h :: post)%list →
  Forall (fun h' => extract_kpis_from_page w (hit_text w h') !! k = None) pre →
  Py.truthy (hit_text w h) = true →
  extract_kpis_from_page w (hit_text w h) !! k = Some v →
  kpi_web_fallback w q !! k = Some v.
Proof.
  intros Hhits Hpre Ht Hv. unfold kpi_web_fallback. rewrite Hhits.
  apply lookup_union_Some_l, fallback_scan_first_page; try done.
  by eapply extract_kpis_names.
Qed.

End KpiKeys.

Section MarketData.

Import Float Tools Spec Sample Cases.

Lemma kpi_web_fallback_first_page_witness :
  kpi_web_fallback page_world "NVDA" !! "p_e_ratio" = Some (of_Z 25).
Proof.
  apply (kpi_web_fallback_first_page page_world "NVDA" []
           {| Hit.title := "A"; Hit.snippet := "..."; Hit.link := "https://a.example" |}
           (replicate 4 {| Hit.title := "A"; Hit.snippet := "...";
                           Hit.link := "https://a.example" |}));
    [vm_compute; reflexivity | constructor | reflexivity | vm_compute; reflexivity].
Defined.

(** X15: the margins computed from the market data are guarded against a
    missing or zero revenue: no margin is returned then; and a ticker
    that cannot be read gives no KPI at all. *)
Theorem yfinance_margins_guarded (w : World.t) (ticker : string) :
  (World.yf_ticker w ticker = None → _kpi_from_yfinance w ticker = ∅) ∧
  (∀ tk getv,
     World.yf_ticker w ticker = Some tk → World.financials tk = Some getv →
     truthy_float (getv "Total Revenue") = None →
     _kpi_from_yfinance w ticker !! "gross_margin" = None ∧
     _kpi_from_yfinance w ticker !! "operating_margin" = None).
Proof.
  unfold _kpi_from_yfinance. split; [by intros ->|].
  intros tk getv -> -> Hrev. destruct (World.info tk) as [info|]; [|done].
  unfold margin. rewrite Hrev. unfold set_if.
  repeat match goal with
         | |- context [truthy_float ?x] => destruct (truthy_float x)
         end; by simplify_map_eq.
Qed.

Lemma yfinance_margins_guarded_witness :
  _kpi_from_yfinance zero_revenue "NVDA" !! "gross_margin" = None ∧
  _kpi_from_yfinance zero_revenue "NVDA" !! "operating_margin" = None.
Proof.
  eapply (proj2 (yfinance_margins_guarded zero_revenue "NVDA")); reflexivity.
Defined.

(** X16: a trailing P/E ratio that the market data gives and that is
    not zero is returned as it is; the ratio of price to earnings is
    computed only in its absence. *)
Theorem yfinance_trailing_pe_first (w : World.t) (ticker : string) tk info x :
  World.yf_ticker w ticker = Some tk → World.info tk = Some info →
  info !! "trailingPE" = Some x → truthy x = true →
  _kpi_from_yfinance w ticker !! "p_e_ratio" = Some x.
Proof.
  intros Htk Hinfo Hpe Hx. unfold _kpi_from_yfinance. rewrite Htk, Hinfo, Hpe.
  assert (Ht : truthy_float (Some x) = Some x) by (unfold truthy_float; by rewrite Hx).
  rewrite !Ht. unfold set_if, margin.
  destruct (World.financials tk) as [getv|];
    repeat match goal with
           | |- context [truthy_float ?y] => destruct (truthy_float y)
           | |- context [getv ?r] => destruct (getv r)
           end; by simplify_map_eq.
Qed.

Lemma yfinance_trailing_pe_first_witness :
  _kpi_from_yfinance zero_revenue "NVDA" !! "p_e_ratio" = Some (of_Z 30).
Proof.
  eapply (yfinance_trailing_pe_first zero_revenue "NVDA"); reflexivity.
Defined.

End MarketData.

(** ** More on the index *)

Section MoreIndex.

Import Tools Spec Sample.

(** What the loop of [build_index] keeps: texts that are not blank, of
    at most 3000 characters. *)
Lemma index_loop_content docs (lang_docs : list LangDoc.t) :
  let ok d := all_space (LangDoc.page_content d) = false ∧
              (Z.of_nat (String.length (LangDoc.page_content d)) ≤ 3000)%Z in
  Forall ok lang_docs → Forall ok (foldl index_step lang_docs docs).
Proof.
  intros ok. revert lang_docs. induction docs as [|d l IH]; intros lang_docs Hall; [done|].
  simpl. apply IH. rewrite index_step_blank. destruct (blank d) eqn:Hb; [done|].
  apply Forall_app. split; [done|]. apply Forall_singleton. split.
  - unfold blank in Hb. unfold index_text. by rewrite get_or_empty.
  - apply take_length_Z. lia.
Qed.

(** X17: what [build_index] stores can be searched: on success the
    registry holds, under the key returned, as many documents as the size
    reported, each with a text that is not blank and of at most 3000
    characters, and [search_index] with that key is the similarity search
    over them. *)
Theorem build_then_search (w : World.t) (now_ms : Z)
    (reg : gmap string (list LangDoc.t)) (docs : list Doc.t) (key : string) (size : nat)
    (query : string) (k : Z) :
  (build_index w now_ms reg docs).1 = BuildOk key size →
  ∃ store,
    (build_index w now_ms reg docs).2 !! key = Some store ∧
    length store = size ∧
    Forall (fun d => all_space (LangDoc.page_content d) = false ∧
                     (Z.of_nat (String.length (LangDoc.page_content d)) ≤ 3000)%Z) store ∧
    length (search_index w (build_index w now_ms reg docs).2 key query k)
    = length (World.similarity_search w store query k) ∧
    Forall2 (fun hit d => Doc.text hit = Some (LangDoc.page_content d) ∧
                          Doc.metadata hit = Some (LangDoc.metadata d))
      (search_index w (build_index w now_ms reg docs).2 key query k)
      (World.similarity_search w store query k).
Proof.
  unfold build_index. destruct docs as [|d0 l]; [done|].
  destruct (World.embeddings_error w); [done|].
  pose proof (index_loop_content (d0 :: l) [] (Forall_nil_2 _)) as Hcontent.
  destruct (foldl index_step [] (d0 :: l)) as [|x xs] eqn:Hfold; [done|].
  destruct (World.faiss_error w (x :: xs)); [done|].
  cbn [fst snd]. intros [= <- <-]. exists (x :: xs).
  unfold search_index. rewrite lookup_insert_eq.
  split; [done|]. split; [done|]. split; [exact Hcontent|].
  split; [by rewrite length_fmap|].
  apply Forall2_fmap_l, Forall_Forall2_diag, Forall_forall. done.
Qed.

Lemma build_then_search_witness :
  ∃ store,
    (build_index offline 1700000000000 ∅ [doc_spaces; doc_revenue]).2 !! "idx_1700000000000"
    = Some store ∧
    length store = 1 ∧
    Forall (fun d => all_space (LangDoc.page_content d) = false ∧
                     (Z.of_nat (String.length (LangDoc.page_content d)) ≤ 3000)%Z) store ∧
    length (search_index offline
              (build_index offline 1700000000000 ∅ [doc_spaces; doc_revenue]).2
              "idx_1700000000000" "nvda" 6)
    = length (World.similarity_search offline store "nvda" 6) ∧
    Forall2 (fun hit d => Doc.text hit = Some (LangDoc.page_content d) ∧
                          Doc.metadata hit = Some (LangDoc.metadata d))
      (search_index offline
         (build_index offline 1700000000000 ∅ [doc_spaces; doc_revenue]).2
         "idx_1700000000000" "nvda" 6)
      (World.similarity_search offline store "nvda" 6).
Proof.
  apply (build_then_search offline 1700000000000 ∅ [doc_spaces; doc_revenue]).
  vm_compute. reflexivity.
Defined.

(** X18: a build touches one entry of the registry at most: a build
    that fails, and one that raises, leave the registry as it was, a
    successful one changes the entry of its own key only; and searching
    a key the registry does not hold gives the empty list. *)
Theorem build_index_frame (w : World.t) (now_ms : Z)
    (reg : gmap string (list LangDoc.t)) (docs : list Doc.t) (key query : string) (k : Z) :
  (is_failed (build_index w now_ms reg docs).1 = true →
   (build_index w now_ms reg docs).2 = reg) ∧
  (∀ e, (build_index w now_ms reg docs).1 = BuildRaise e →
        (build_index w now_ms reg docs).2 = reg) ∧
  (key ≠ "idx_" ++ Py.str_of_Z now_ms →
   (build_index w now_ms reg docs).2 !! key = reg !! key) ∧
  (reg !! key = None → search_index w reg key query k = []).
Proof.
  unfold build_index, search_index. split; [|split; [|split]].
  - destruct docs as [|d0 l]; [done|]. destruct (World.embeddings_error w); [done|].
    destruct (foldl index_step [] (d0 :: l)) as [|x xs]; [done|].
    by destruct (World.faiss_error w (x :: xs)).
  - intros e. destruct docs as [|d0 l]; [done|].
    destruct (World.embeddings_error w); [done|].
    destruct (foldl index_step [] (d0 :: l)) as [|x xs]; [done|].
    by destruct (World.faiss_error w (x :: xs)).
  - intros Hk. destruct docs as [|d0 l]; [done|].
    destruct (World.embeddings_error w); [done|].
    destruct (foldl index_step [] (d0 :: l)) as [|x xs]; [done|].
    destruct (World.faiss_error w (x :: xs)); [done|]. cbn [snd].
    by rewrite lookup_insert_ne.
  - by intros ->.
Qed.

Lemma build_index_frame_witness :
  search_index offline (build_index offline 1700000000000 ∅ [doc_revenue]).2
    "idx_0" "nvda" 6 = [].
Proof.
  apply (proj2 (proj2 (proj2 (build_index_frame offline 1700000000000
                                (build_index offline 1700000000000 ∅ [doc_revenue]).2 []
                                "idx_0" "nvda" 6)))).
  vm_compute. reflexivity.
Defined.

End MoreIndex.

(** ** More on the growth estimate *)

Section MoreGrowth.

Import Float Tools Spec Sample.

Lemma estimate_growth_floor_witness :
  leb (dec 1 100)
    (_estimate_growth
       {[ "gross_margin" := S754_infinity true; "operating_margin" := neg (of_Z 5);
          "p_e_ratio" := nan ]}
       (Some (neg (of_Z 9))) (Some (S754_infinity false)))
  = true.
Proof.
  apply estimate_growth_floor.
  - intros x Hx. vm_compute in Hx. by injection Hx as <-.
  - intros x Hx. vm_compute in Hx. by injection Hx as <-.
  - intros x Hx. by injection Hx as <-.
  - intros x Hx. by injection Hx as <-.
Defined.

(** X20: a margin that is falsy (a zero of either sign) and a P/E ratio
    that is not positive count as missing: the estimate is the one
    without them. *)
Theorem estimate_growth_ignores (kpi : gmap string float) (momentum cagr : option float) :
  (∀ x, kpi !! "gross_margin" = Some x → truthy x = false →
        _estimate_growth kpi momentum cagr
        = _estimate_growth (delete "gross_margin" kpi) momentum cagr) ∧
  (∀ x, kpi !! "operating_margin" = Some x → truthy x = false →
        _estimate_growth kpi momentum cagr
        = _estimate_growth (delete "operating_margin" kpi) momentum cagr) ∧
  (∀ x, kpi !! "p_e_ratio" = Some x → ltb zero x = false →
        _estimate_growth kpi momentum cagr
        = _estimate_growth (delete "p_e_ratio" kpi) momentum cagr).
Proof.
  unfold _estimate_growth. split; [|split].
  - intros x Hx Hz. rewrite Hx, lookup_delete_eq, !lookup_delete_ne by done.
    cbn [margin_adj]. by rewrite Hz.
  - intros x Hx Hz. rewrite Hx, lookup_delete_eq, !lookup_delete_ne by done.
    cbn [margin_adj]. by rewrite Hz.
  - intros x Hx Hpos. rewrite Hx, lookup_delete_eq, !lookup_delete_ne by done.
    unfold pe_adj. by rewrite Hpos, andb_false_r.
Qed.

Lemma estimate_growth_ignores_witness :
  _estimate_growth {[ "p_e_ratio" := neg (of_Z 12) ]} None None
  = _estimate_growth (delete "p_e_ratio" {[ "p_e_ratio" := neg (of_Z 12) ]}) None None.
Proof.
  apply (proj2 (proj2 (estimate_growth_ignores {[ "p_e_ratio" := neg (of_Z 12) ]} None None))
           (neg (of_Z 12))); reflexivity.
Defined.

End MoreGrowth.

(** ** More on the stages *)

Section Stages.

Import Tools Spec Sample.

Lemma tool_calls_truthy (hits : list Hit.t) :
  Forall (fun u => Py.truthy u = true) (Researcher.tool_calls hits).
Proof.
  unfold Researcher.tool_calls. apply Forall_forall. intros u Hu.
  by apply list_elem_of_filter in Hu as [Hu _].
Qed.

Lemma tool_calls_length (hits : list Hit.t) :
  (length (Researcher.tool_calls hits) ≤ 6)%nat.
Proof.
  unfold Researcher.tool_calls.
  etrans; [apply length_filter|]. rewrite length_fmap.
  pose proof (slice_to_length 6 hits). lia.
Qed.

Lemma http_fetch_url (w : World.t) (u : string) (timeout : Z) :
  Py.truthy u = true → Page.url (http_fetch w u timeout) = u.
Proof.
  intros Hu. unfold http_fetch. rewrite Hu. simpl.
  by destruct (World.requests_get w u timeout).
Qed.

Lemma http_fetch_text (w : World.t) (u : string) (timeout : Z) :
  (Z.of_nat (String.length (Page.text (http_fetch w u timeout))) ≤ 60000)%Z.
Proof.
  unfold http_fetch. destruct (negb (Py.truthy u)); [simpl; lia|].
  destruct (World.requests_get w u timeout); simpl; [|lia].
  apply take_length_Z. lia.
Qed.

(** The links of [tool_calls], said with the list functions. *)
Lemma tool_calls_links (hits : list Hit.t) :
  Researcher.tool_calls hits = filter (fun u => u ≠ "") (Hit.link <$> take 6 hits).
Proof.
  unfold Researcher.tool_calls. apply list_filter_iff. intros u. by destruct u.
Qed.

(** X21: the research stage stores the hits of its search, at most ten,
    and between one and six documents; when one of the first six hits
    carries a link, the documents are the pages fetched from those
    links, one per link and in their order: each has the link it was
    fetched from as its URL, whether or not the request succeeded, the
    title and the text of the page fetched, and a text of at most 60000
    characters. *)
Theorem researcher_fetches_links (w : World.t) (t0 t1 : Float.float) (state : State.t) :
  let hits :=
    web_search w (Py.first_truthy [State.query state; State.ticker state]) 10 in
  let links := filter (fun u => u ≠ "") (Hit.link <$> take 6 hits) in
  State.web_results (Researcher.node w t0 t1 state) = Some hits ∧
  (length hits ≤ 10)%nat ∧
  ∃ docs,
    State.docs (Researcher.node w t0 t1 state) = Some docs ∧
    (1 ≤ length docs ≤ 6)%nat ∧
    (links ≠ [] →
     docs = (fun u => Doc.make u (Page.title (http_fetch w u 15))
                        (Page.text (http_fetch w u 15))) <$> links ∧
     Forall (fun d => ∃ tx, Doc.text d = Some tx ∧
                            (Z.of_nat (String.length tx) ≤ 60000)%Z) docs).
Proof.
  intros hits links. destruct (researcher_fields w t0 t1 state) as [Hh Hd].
  fold hits in Hh, Hd.
  assert (Hcalls : Researcher.tool_calls hits = links) by apply tool_calls_links.
  assert (Hten : (length hits ≤ 10)%nat).
  { pose proof (slice_to_length 10 (dedupe ∅ (raw_hits w
      (Py.first_truthy [State.query state; State.ticker state]) 10))).
    unfold hits, web_search. lia. }
  pose proof (tool_calls_length hits) as Hlen.
  pose proof (tool_calls_truthy hits) as Htruthy.
  clearbody links hits. rewrite Hcalls in Hlen, Htruthy.
  split; [exact Hh|]. split; [exact Hten|].
  eexists. split; [exact Hd|]. unfold Researcher.fetch_docs. rewrite Hcalls.
  destruct links as [|u l]; [split; [simpl; lia | done]|].
  split; [rewrite length_fmap; simpl in *; lia|]. intros _.
  generalize dependent (u :: l). clear. intros calls _ _ Htruthy. split.
  - induction Htruthy as [|x r Hx _ IH]; [done|].
    rewrite !fmap_cons, IH. f_equal. unfold Researcher.doc_of_page.
    by rewrite http_fetch_url.
  - apply Forall_fmap, Forall_forall. intros x _. simpl.
    eexists. split; [done|]. apply http_fetch_text.
Qed.

(** What the curating stage writes besides the trace. *)
Lemma curator_fields (w : World.t) (t0 t1 : Float.float) (now_ms : Z)
    (reg : gmap string (list LangDoc.t)) (state : State.t) :
  let docs := default [] (State.docs state) in
  let built := build_index w now_ms reg docs in
  let selected := Curator.select w built.2 built.1 (default "" (State.query state)) docs in
  State.docs (Curator.node w t0 t1 now_ms reg state).1 = Some selected ∧
  State.summary (Curator.node w t0 t1 now_ms reg state).1
  = Some (World.summarize_docs w selected (default "" (State.query state))) ∧
  State.query (Curator.node w t0 t1 now_ms reg state).1 = State.query state ∧
  State.ticker (Curator.node w t0 t1 now_ms reg state).1 = State.ticker state ∧
  (Curator.node w t0 t1 now_ms reg state).2 = built.2.
Proof.
  unfold Curator.node. simpl.
  destruct (build_index w now_ms reg (default [] (State.docs state))) as [idx reg'].
  done.
Qed.

Lemma select_non_empty (w : World.t) (reg : gmap string (list LangDoc.t))
    (idx : build_result) (q : string) (docs : list Doc.t) :
  docs ≠ [] → Curator.select w reg idx q docs ≠ [].
Proof.
  intros Hdocs.
  assert (Hslice : Py.slice_to 6 docs ≠ []) by (by destruct docs).
  unfold Curator.select. destruct idx as [e|key size|e]; [done| |done].
  destruct (Py.truthy key); [|done].
  by destruct (search_index w reg key q 6).
Qed.

(** The key of a successful build is not the empty string. *)
Lemma build_index_key (w : World.t) (now_ms : Z) (reg : gmap string (list LangDoc.t))
    (docs : list Doc.t) (key : string) (size : nat) :
  (build_index w now_ms reg docs).1 = BuildOk key size → Py.truthy key = true.
Proof.
  unfold build_index. destruct docs as [|d0 l]; [done|].
  destruct (World.embeddings_error w); [done|].
  destruct (foldl index_step [] (d0 :: l)) as [|x xs]; [done|].
  destruct (World.faiss_error w (x :: xs)); [done|].
  cbn [fst]. by intros [= <- _].
Qed.

(** A build that does not succeed leaves the registry as it was. *)
Lemma build_index_unchanged (w : World.t) (now_ms : Z)
    (reg : gmap string (list LangDoc.t)) (docs : list Doc.t) :
  (∀ key size, (build_index w now_ms reg docs).1 ≠ BuildOk key size) →
  (build_index w now_ms reg docs).2 = reg.
Proof.
  unfold build_index. destruct docs as [|d0 l]; [done|].
  destruct (World.embeddings_error w); [done|].
  destruct (foldl index_step [] (d0 :: l)) as [|x xs]; [done|].
  destruct (World.faiss_error w (x :: xs)); [done|].
  cbn [fst snd]. intros Hno. by destruct (Hno _ _ eq_refl).
Qed.

(** X22: the curating stage never loses the documents: from documents
    that are not empty it leaves documents that are not empty, and
    summarises the ones it leaves. When the index is not built (the
    build fails, every text being blank, or raises) it passes on the
    first six documents as they came and leaves the registry as it was;
    when the index is built and its search, for the query of the run and
    six results, finds nothing, it passes on the first six documents as
    well; and when that search finds documents, it leaves those, each
    with the URL and the title of its metadata and with its text. *)
Theorem curator_keeps_docs (w : World.t) (t0 t1 : Float.float) (now_ms : Z)
    (reg : gmap string (list LangDoc.t)) (state : State.t) (docs : list Doc.t) :
  State.docs state = Some docs → docs ≠ [] →
  let built := build_index w now_ms reg docs in
  let q := default "" (State.query state) in
  ∃ selected,
    State.docs (Curator.node w t0 t1 now_ms reg state).1 = Some selected ∧
    selected ≠ [] ∧
    State.summary (Curator.node w t0 t1 now_ms reg state).1
    = Some (World.summarize_docs w selected q) ∧
    (Curator.node w t0 t1 now_ms reg state).2 = built.2 ∧
    (is_failed built.1 = true ∨ (∃ e, built.1 = BuildRaise e) →
     selected = take 6 docs ∧ (Curator.node w t0 t1 now_ms reg state).2 = reg) ∧
    (∀ key size, built.1 = BuildOk key size →
       (search_index w built.2 key q 6 = [] → selected = take 6 docs) ∧
       (search_index w built.2 key q 6 ≠ [] →
        selected
        = (fun h => Doc.make (default "" (Doc.metadata h ≫= Metadata.url))
                      (default "" (Doc.metadata h ≫= Metadata.title))
                      (default "" (Doc.text h)))
          <$> search_index w built.2 key q 6)).
Proof.
  intros Hdocs Hne built q.
  destruct (curator_fields w t0 t1 now_ms reg state) as (Hd & Hs & _ & _ & Hreg).
  rewrite Hdocs in Hd, Hs, Hreg. simpl in Hd, Hs, Hreg. fold built in Hd, Hs, Hreg.
  fold q in Hd, Hs.
  eexists. split; [exact Hd|]. split; [by apply select_non_empty|].
  split; [exact Hs|]. split; [exact Hreg|]. split.
  - intros Hnot. rewrite Hreg. split.
    + unfold Curator.select. destruct Hnot as [Hf|[e He]].
      * by destruct built.1.
      * by rewrite He.
    + apply build_index_unchanged. intros key size Hok. fold built in Hok.
      destruct Hnot as [Hf|[e He]]; [by rewrite Hok in Hf | congruence].
  - intros key size Hok. unfold Curator.select. rewrite Hok.
    rewrite (build_index_key w now_ms reg docs key size Hok). split.
    + by intros ->.
    + intros Hfound. by destruct (search_index w built.2 key q 6).
Qed.

Lemma curator_keeps_docs_witness :
  ∃ selected,
    State.docs (Curator.node offline Float.zero Float.zero 1700000000000 ∅
                  (Researcher.node no_links Float.zero Float.zero
                     (State.initial "nvda" None))).1 = Some selected ∧
    selected ≠ [].
Proof.
  destruct (curator_keeps_docs offline Float.zero Float.zero 1700000000000 ∅
              (Researcher.node no_links Float.zero Float.zero (State.initial "nvda" None))
              [Doc.make "" "Only a title" "..."])
    as [selected [Hd [Hne _]]].
  - vm_compute. reflexivity.
  - discriminate.
  - by exists selected.
Defined.

(** What the checking stage writes besides the trace. *)
Lemma fact_checker_fields (w : World.t) (t0 t1 : Float.float) (m : Z) (state : State.t) :
  let claims :=
    extract_claims_tool w (default "" (State.summary state))
      (default "" (State.query state)) 6 in
  State.claims (FactChecker.node w t0 t1 m state) = Some claims ∧
  State.checked_claims (FactChecker.node w t0 t1 m state)
  = Some (verify_claims_tool claims (default [] (State.docs state)) m) ∧
  State.docs (FactChecker.node w t0 t1 m state) = State.docs state ∧
  State.query (FactChecker.node w t0 t1 m state) = State.query state ∧
  State.ticker (FactChecker.node w t0 t1 m state) = State.ticker state.
Proof. done. Qed.

Lemma extract_claims_length (w : World.t) (summary topic : string) (n : Z) :
  (0 ≤ n)%Z → (Z.of_nat (length (extract_claims_tool w summary topic n)) ≤ n)%Z.
Proof.
  intros Hn. unfold extract_claims_tool.
  destruct (World.llm_claims w summary topic n); [by apply slice_to_length | simpl; lia].
Qed.

(** X23: the checking stage checks at most six claims, gives one result
    per claim, in the order of the claims and under the claim's own
    text, and leaves the documents as they were; when the language model
    fails there is no claim and no result. *)
Theorem fact_checker_results (w : World.t) (t0 t1 : Float.float) (m : Z)
    (state : State.t) :
  ∃ claims checked,
    State.claims (FactChecker.node w t0 t1 m state) = Some claims ∧
    State.checked_claims (FactChecker.node w t0 t1 m state) = Some checked ∧
    (length claims ≤ 6)%nat ∧
    (fun v => v !! "claim") <$> checked = (fun c => Some (VStr c)) <$> claims ∧
    State.docs (FactChecker.node w t0 t1 m state) = State.docs state ∧
    (World.llm_claims w (default "" (State.summary state))
       (default "" (State.query state)) 6 = None →
     claims = [] ∧ checked = []).
Proof.
  destruct (fact_checker_fields w t0 t1 m state) as (Hc & Hv & Hd & _).
  eexists _, _. split; [exact Hc|]. split; [exact Hv|]. split; [|split; [|split]].
  - pose proof (extract_claims_length w (default "" (State.summary state))
                  (default "" (State.query state)) 6). lia.
  - unfold verify_claims_tool. rewrite <- list_fmap_compose.
    apply list_fmap_ext. intros i c _. apply entry_claim.
  - exact Hd.
  - intros Hllm. unfold extract_claims_tool. by rewrite Hllm.
Qed.

End Stages.

(** ** The run as a whole *)

Section Run.

Import Tools Spec Sample Cases.

(** The writing stage changes [report_html] only. *)
Lemma writer_fields (w : World.t) (now_s : Z) (state : State.t) :
  State.report_html (Writer.node w now_s state)
  = Some (World.outputs_dir w ++ "report_" ++ Py.str_of_Z now_s ++ ".html") ∧
  State.docs (Writer.node w now_s state) = State.docs state ∧
  State.claims (Writer.node w now_s state) = State.claims state ∧
  State.checked_claims (Writer.node w now_s state) = State.checked_claims state ∧
  State.query (Writer.node w now_s state) = State.query state ∧
  State.ticker (Writer.node w now_s state) = State.ticker state.
Proof. done. Qed.

(** The four stages, one after the other. *)
Lemma invoke_stages (e : Graph.env) (sr : State.t * gmap string (list LangDoc.t)) :
  let s1 := Researcher.node (Graph.world e) (Graph.clock e Graph.Researcher).1
              (Graph.clock e Graph.Researcher).2 sr.1 in
  let s2 := Curator.node (Graph.world e) (Graph.clock e Graph.Curator).1
              (Graph.clock e Graph.Curator).2 (Graph.index_ms e) sr.2 s1 in
  let s3 := FactChecker.node (Graph.world e) (Graph.clock e Graph.FactChecker).1
              (Graph.clock e Graph.FactChecker).2 (Graph.min_overlap e) s2.1 in
  Graph.invoke e sr = (Writer.node (Graph.world e) (Graph.report_s e) s3, s2.2).
Proof.
  unfold Graph.invoke, Graph.stages, Graph.run_stage. simpl.
  destruct (Graph.clock e Graph.Researcher), (Graph.clock e Graph.Curator),
    (Graph.clock e Graph.FactChecker), (Graph.clock e Graph.Writer). done.
Qed.

(** What a run leaves in the state. *)
Lemma invoke_fields (e : Graph.env) (q : string) (tk : option string)
    (reg : gmap string (list LangDoc.t)) :
  ∃ docs claims,
    State.docs (Graph.invoke e (State.initial q tk, reg)).1 = Some docs ∧
    docs ≠ [] ∧
    State.claims (Graph.invoke e (State.initial q tk, reg)).1 = Some claims ∧
    (length claims ≤ 6)%nat ∧
    State.checked_claims (Graph.invoke e (State.initial q tk, reg)).1
    = Some (verify_claims_tool claims docs (Graph.min_overlap e)) ∧
    State.report_html (Graph.invoke e (State.initial q tk, reg)).1
    = Some (World.outputs_dir (Graph.world e) ++ "report_"
            ++ Py.str_of_Z (Graph.report_s e) ++ ".html") ∧
    State.query (Graph.invoke e (State.initial q tk, reg)).1 = Some q ∧
    State.ticker (Graph.invoke e (State.initial q tk, reg)).1 = tk.
Proof.
  rewrite invoke_stages. cbn [fst snd].
  set (s1 := Researcher.node _ _ _ _).
  set (s2 := Curator.node _ _ _ _ _ _).
  set (s3 := FactChecker.node _ _ _ _ _).
  destruct (writer_fields (Graph.world e) (Graph.report_s e) s3)
    as (Hr4 & Hd4 & Hc4 & Hv4 & Hq4 & Ht4).
  destruct (fact_checker_fields (Graph.world e) (Graph.clock e Graph.FactChecker).1
              (Graph.clock e Graph.FactChecker).2 (Graph.min_overlap e) s2.1)
    as (Hc3 & Hv3 & Hd3 & Hq3 & Ht3).
  destruct (curator_fields (Graph.world e) (Graph.clock e Graph.Curator).1
              (Graph.clock e Graph.Curator).2 (Graph.index_ms e) reg s1)
    as (Hd2 & _ & Hq2 & Ht2 & _).
  destruct (researcher_fields (Graph.world e) (Graph.clock e Graph.Researcher).1
              (Graph.clock e Graph.Researcher).2 (State.initial q tk)) as [_ Hd1].
  fold s1 in Hd1, Hd2, Hq2, Ht2. fold s2 in Hd2, Hq2, Ht2, Hc3, Hv3, Hd3, Hq3, Ht3.
  fold s3 in Hc3, Hv3, Hd3, Hq3, Ht3.
  rewrite Hd1 in Hd2. simpl in Hd2.
  eexists _, _. split; [by rewrite Hd4, Hd3, Hd2|]. split.
  { apply select_non_empty, fetch_docs_non_empty. }
  split; [by rewrite Hc4, Hc3|]. split.
  { pose proof (extract_claims_length (Graph.world e) (default "" (State.summary s2.1))
                  (default "" (State.query s2.1)) 6). lia. }
  split; [by rewrite Hv4, Hv3, Hd2|]. split; [exact Hr4|].
  split; [by rewrite Hq4, Hq3, Hq2 | by rewrite Ht4, Ht3, Ht2].
Qed.


Lemma min_evidence_overlap_range (form_mode : option string) :
  (1 ≤ Main.min_evidence_overlap form_mode ≤ 2)%Z.
Proof. unfold Main.min_evidence_overlap. repeat case_bool_decide; lia. Qed.

(** X25: in a run started from the form, whatever the mode, a claim is
    reported as true only if one of the documents the run ends with
    shares with it at least as many tokens as the mode asks for: one, and
    two in the strict mode. *)
Theorem run_research_verdicts (e : Graph.env) (form_query form_ticker form_mode : option string)
    (reg : gmap string (list LangDoc.t)) (checked : list (gmap string pyval))
    (v : gmap string pyval) :
  State.checked_claims (Main.run_research e form_query form_ticker form_mode reg).1
  = Some checked →
  v ∈ checked →
  v !! "verdict" = Some (VBool true) →
  ∃ docs c s,
    State.docs (Main.run_research e form_query form_ticker form_mode reg).1 = Some docs ∧
    v !! "claim" = Some (VStr c) ∧ s ∈ docs ∧
    (Main.min_evidence_overlap form_mode ≤ Z.of_nat (overlap_of (tokens c) s))%Z ∧
    (1 ≤ Main.min_evidence_overlap form_mode ≤ 2)%Z ∧
    (Main.mode_of form_mode = "strict" → (2 ≤ overlap_of (tokens c) s)%nat).
Proof.
  unfold Main.run_research. intros Hchecked Hv Htrue.
  match type of Hchecked with
  | State.checked_claims (Graph.invoke ?e' (State.initial ?q ?tk, _)).1 = _ =>
      destruct (invoke_fields e' q tk reg) as (docs & claims & Hd & _ & _ & _ & Hc & _)
  end.
  rewrite Hc in Hchecked. injection Hchecked as <-. cbn [Graph.min_overlap] in Hv.
  unfold verify_claims_tool in Hv. apply list_elem_of_fmap in Hv as [c [-> Hin]].
  destruct (verify_one_fields docs (Main.min_evidence_overlap form_mode) c) as [Hverdict _].
  rewrite Hverdict in Htrue. injection Htrue as Hr.
  apply reaches_spec in Hr as [s [Hs Hov]].
  exists docs, c, s. split; [exact Hd|]. split; [apply entry_claim|].
  split; [exact Hs|]. split; [exact Hov|]. split; [apply min_evidence_overlap_range|].
  intros Hmode. unfold Main.min_evidence_overlap in Hov.
  rewrite bool_decide_eq_true_2 in Hov by done. lia.
Qed.

Lemma run_research_verdicts_witness :
  ∃ docs c s,
    State.docs (Main.run_research answering_env (Some "nvda") None (Some "Relaxed") ∅).1
    = Some docs ∧
    verify_one [Doc.make "" "Results" "Revenue GREW in 2024"] 1 claim_2024 !! "claim"
    = Some (VStr c) ∧
    s ∈ docs ∧
    (Main.min_evidence_overlap (Some "Relaxed") ≤ Z.of_nat (overlap_of (tokens c) s))%Z ∧
    (1 ≤ Main.min_evidence_overlap (Some "Relaxed") ≤ 2)%Z ∧
    (Main.mode_of (Some "Relaxed") = "strict" → (2 ≤ overlap_of (tokens c) s)%nat).
Proof.
  apply (run_research_verdicts answering_env (Some "nvda") None (Some "Relaxed") ∅
           [verify_one [Doc.make "" "Results" "Revenue GREW in 2024"] 1 claim_2024]).
  - vm_compute. reflexivity.
  - apply list_elem_of_singleton. reflexivity.
  - reflexivity.
Defined.

End Run.

(** ** The summary, the sources file and the text the KPIs are read from *)

Section Texts.

Import Tools Spec Sample.

Lemma take_idem (n : Z) (s : string) : Py.take n (Py.take n s) = Py.take n s.
Proof.
  revert n. induction s as [|a s IH]; intros n; simpl; [done|].
  destruct (0 <? n)%Z eqn:Hn; simpl; [|done]. by rewrite Hn, IH.
Qed.

Lemma slice_to_take {A} (n m : nat) (l : list A) :
  (n ≤ m)%nat → Py.slice_to (Z.of_nat n) (take m l) = Py.slice_to (Z.of_nat n) l.
Proof.
  intros Hnm. unfold Py.slice_to.
  rewrite (proj2 (Z.leb_le 0 (Z.of_nat n))) by lia.
  rewrite Nat2Z.id, take_take. f_equal. lia.
Qed.

Lemma fallback_truthy (docs : list Doc.t) : Py.truthy (Summarizer.fallback docs) = true.
Proof. reflexivity. Qed.

(** X26: the summary is never the empty string. The model is asked
    once, with the prompt made of the query and the excerpts of the
    first eight documents; an answer that is not blank is returned
    stripped; an answer that is blank, and a call that fails, give the
    heading followed by one bullet per document of the first five, each
    bullet made of the title, the start of the text and the URL; and no
    document after the eighth has a part in the result. *)
Theorem summary_never_empty (load_prompt : string -> string -> string)
    (llm : string -> option string) (docs : list Doc.t) (query : string) :
  let prompt := load_prompt query (Py.join Py.nl (Summarizer.excerpt <$> take 8 docs)) in
  let bullets :=
    Summarizer.header ++ Py.nl ++ Py.join Py.nl (Summarizer.bullet <$> take 5 docs) in
  Py.truthy (Summarizer.summarize_docs load_prompt llm docs query) = true ∧
  (∀ content, llm prompt = Some content → all_space content = false →
              Summarizer.summarize_docs load_prompt llm docs query = Py.strip content) ∧
  (from_option all_space true (llm prompt) = true →
   Summarizer.summarize_docs load_prompt llm docs query = bullets) ∧
  Summarizer.summarize_docs load_prompt llm (take 8 docs) query
  = Summarizer.summarize_docs load_prompt llm docs query.
Proof.
  intros prompt bullets. split; [|split; [|split]].
  - unfold Summarizer.summarize_docs.
    destruct (llm _) as [content|]; [|apply fallback_truthy].
    destruct (Py.truthy (Py.strip content)) eqn:Hs; [done | apply fallback_truthy].
  - intros content Hllm Hcontent. unfold Summarizer.summarize_docs.
    change (load_prompt query (Summarizer.excerpts docs)) with prompt. rewrite Hllm.
    rewrite <- strip_blank in Hcontent. apply negb_false_iff in Hcontent.
    by rewrite Hcontent.
  - intros Hblank. unfold Summarizer.summarize_docs.
    change (load_prompt query (Summarizer.excerpts docs)) with prompt.
    destruct (llm prompt) as [content|]; [|done].
    simpl in Hblank. rewrite <- strip_blank in Hblank.
    apply negb_true_iff in Hblank. by rewrite Hblank.
  - unfold Summarizer.summarize_docs, Summarizer.excerpts, Summarizer.fallback.
    by rewrite (slice_to_take 8 8), (slice_to_take 5 8) by lia.
Qed.

(** [s[:n]] is the start of [s], and the whole of a short [s]. *)
Lemma take_prefix (n : Z) (s : string) :
  (∃ rest, s = Py.take n s ++ rest) ∧
  ((Z.of_nat (String.length s) ≤ n)%Z → Py.take n s = s).
Proof.
  revert n. induction s as [|a s IH]; intros n; simpl; [split; [by exists ""|done]|].
  destruct (IH (n - 1)%Z) as [[rest Hrest] Hshort].
  destruct (0 <? n)%Z eqn:Hn.
  - split; [exists rest; rewrite app_cons; congruence|].
    intros Hlen. f_equal. apply Hshort. lia.
  - split; [by eexists|]. apply Z.ltb_ge in Hn. lia.
Qed.

(** X27: the sources file lists the first twelve documents, in their
    order: each entry has the URL of its document, the title of its
    document, or the URL when the document has no title or an empty
    one, and as text the first 1200 characters of the document's text
    (the whole text when it is no longer). *)
Theorem sources_items_bounds (docs : list Doc.t) :
  (length (Sources.items docs) ≤ 12)%nat ∧
  Forall2
    (fun d it =>
       let url := default "" (Doc.url d) in
       let title := default "" (Doc.title d) in
       let text := default "" (Doc.text d) in
       Doc.url it = Some url ∧
       Doc.title it = Some (if bool_decide (title = "") then url else title) ∧
       ∃ tx, Doc.text it = Some tx ∧
             (Z.of_nat (String.length tx) ≤ 1200)%Z ∧
             (∃ rest, text = tx ++ rest) ∧
             ((Z.of_nat (String.length text) ≤ 1200)%Z → tx = text))
    (take 12 docs) (Sources.items docs).
Proof.
  unfold Sources.items. split.
  - rewrite length_fmap. pose proof (slice_to_length 12 docs). lia.
  - apply Forall2_fmap_r, Forall_Forall2_diag, Forall_forall. intros d _. simpl.
    split; [done|]. split.
    + unfold Py.str_or. by destruct (default "" (Doc.title d)).
    + rewrite get_or_empty. eexists. split; [done|].
      split; [apply take_length_Z; lia|]. apply take_prefix.
Qed.

(** The text of a document cut to its first 6000 characters. *)
Lemma aggregate_cut (docs : list Doc.t) :
  Writer.aggregate
    ((fun d => {| Doc.url := Doc.url d; Doc.title := Doc.title d;
                  Doc.text := Py.take 6000 <$> Doc.text d;
                  Doc.metadata := Doc.metadata d |}) <$> docs)
  = Writer.aggregate docs.
Proof.
  unfold Writer.aggregate. rewrite <- list_fmap_compose. do 2 f_equal.
  apply list_fmap_ext. intros i d _. simpl.
  destruct (Doc.text d); simpl; [apply take_idem | done].
Qed.

(** X28: the KPIs of the report are read from at most 24000 characters,
    and from the first 6000 characters of a document only: what a
    document says further on changes neither the text the patterns are
    run on nor the KPIs. *)
Theorem writer_reads_document_heads (w : World.t) (t : option string) (q : string)
    (docs : list Doc.t) :
  let cut d := {| Doc.url := Doc.url d; Doc.title := Doc.title d;
                  Doc.text := Py.take 6000 <$> Doc.text d;
                  Doc.metadata := Doc.metadata d |} in
  (Z.of_nat (String.length (Writer.aggregate docs)) ≤ 24000)%Z ∧
  Writer.aggregate (cut <$> docs) = Writer.aggregate docs ∧
  Writer.kpis w t q (cut <$> docs) = Writer.kpis w t q docs.
Proof.
  intros cut. split; [apply take_length_Z; lia|]. split; [apply aggregate_cut|].
  unfold Writer.kpis. by rewrite aggregate_cut.
Qed.

End Texts.
